(** * Metric plugins of mackerel-agent-plugins: Elasticsearch, HAProxy, PHP-FPM

    A shallow embedding of [FetchMetrics] and its helpers for the three
    plugins, followed by the properties of the specification that can be
    settled on them.

    Conventions.
    - A Go [float64] is a primitive binary64 [float]; a [uint64] is an [N]
      below [2^64]; a [time.Duration] is a [Z] counting nanoseconds.
    - A Go [error] is the text it carries.
    - A Go [map[string]T] is a [gmap string T]; a nil map reads like the
      empty one.
    - Calls into Go's standard library (net/http, encoding/json,
      encoding/csv, strconv) are not part of the plugins: what they deliver
      is an input of the embedding. *)

From Stdlib Require Import Floats ZArith Ascii.
From stdpp Require Import gmap strings list fin_maps.

Local Open Scope string_scope.
Local Set Warnings "-register-all".

(** ** How a call ends *)

(** A Go call returning [(T, error)] either returns a value, returns an
    error, panics, or never returns. *)
Inductive outcome (A : Type) : Type :=
| Ok (a : A)
| Err (e : string)
| Panic (msg : string)
| Blocked.

Arguments Ok {A} a.
Arguments Err {A} e.
Arguments Panic {A} msg.
Arguments Blocked {A}.

#[global] Instance outcome_ret : MRet outcome := λ A a, Ok a.

#[global] Instance outcome_bind : MBind outcome := λ A B k x,
  match x with
  | Ok a => k a
  | Err e => Err e
  | Panic msg => Panic msg
  | Blocked => Blocked
  end.

#[global] Instance outcome_fmap : FMap outcome := λ A B f x,
  match x with
  | Ok a => Ok (f a)
  | Err e => Err e
  | Panic msg => Panic msg
  | Blocked => Blocked
  end.

Definition is_ok {A} (x : outcome A) : bool :=
  match x with Ok _ => true | _ => false end.

Definition is_err {A} (x : outcome A) : bool :=
  match x with Err _ => true | _ => false end.

Definition is_panic {A} (x : outcome A) : bool :=
  match x with Panic _ => true | _ => false end.

(** [for ... range m] visits every entry of a map once, in an order Go
    leaves unspecified: the order is an input. *)
Definition ranger : Type := ∀ V : Type, gmap string V → list (string * V).

Definition fair (range : ranger) : Prop :=
  ∀ V (m : gmap string V), range V m ≡ₚ map_to_list m.

Definition range_sorted : ranger := λ V m, map_to_list m.

(** ** net/http, as far as the plugins configure it *)

Module http.

Inductive transport : Type :=
| DefaultTransport
| TLSTransport (InsecureSkipVerify : bool)
| FastCGITransport (Timeout : Z).

(** [Timeout] is a [time.Duration]; net/http arms a deadline only when it
    is positive ("a Timeout of zero means no timeout"). *)
Record Client : Type := {
  Transport : transport;
  Timeout : Z
}.

Record Request : Type := {
  Method : string;
  URL : string;
  UserAgent : option string;
  BasicAuth : option (string * string)
}.

Record Response (B : Type) : Type := {
  StatusCode : Z;
  Status : string;
  Body : B
}.
Arguments StatusCode {B} _.
Arguments Status {B} _.
Arguments Body {B} _.

(** What the remote end does with one request. [Refuses err]: no response
    comes about and [client.Do] returns [err]. [Answers d r]: the head of the
    response [r] (status line and headers) is there after [d] nanoseconds,
    and [Body r] is what the plugin gets to read from its body, a read that
    fails included. [Silent]: nothing ever comes back. *)
Inductive behaviour (B : Type) : Type :=
| Refuses (err : string)
| Answers (after : Z) (r : Response B)
| Silent.
Arguments Refuses {B} err.
Arguments Answers {B} after r.
Arguments Silent {B}.

Definition second : Z := 1000000000.

(** What net/http reports when the deadline of [Client.Timeout] passes
    before the head of the response is there. It hands this out inside a
    [*url.Error], which puts the method and the quoted address before it; the
    plugins pass the error on as a value and never look at its text, and the
    properties below are stated for whichever error [Do] returns. *)
Definition timeout_error : string := "context deadline exceeded (Client.Timeout exceeded while awaiting headers)".

(** [client.Do(req)]: it returns once the head of the response is there, or
    with an error when the deadline passes first; without a deadline it
    waits. The body is read afterwards, by the plugin. *)
Definition Do {B} (c : Client) (b : behaviour B) : outcome (Response B) :=
  match b with
  | Refuses err => Err err
  | Answers d r =>
      if ((0 <? Timeout c) && (Timeout c <? d))%Z then Err timeout_error
      else Ok r
  | Silent =>
      if (0 <? Timeout c)%Z then Err timeout_error else Blocked
  end.

(** The world a plugin runs in: which strings [url.Parse] rejects (and
    with which error), and how the target treats a request. *)
Record World (B : Type) : Type := {
  url_Parse : string → option string;
  remote : Client → Request → behaviour B
}.
Arguments url_Parse {B} _ _.
Arguments remote {B} _ _ _.

Definition NewRequest {B} (w : World B) (method url : string) : outcome Request :=
  match url_Parse w url with
  | Some err => Err err
  | None => Ok {| Method := method; URL := url; UserAgent := None; BasicAuth := None |}
  end.

Definition SetUserAgent (ua : string) (r : Request) : Request :=
  {| Method := Method r; URL := URL r; UserAgent := Some ua; BasicAuth := BasicAuth r |}.

Definition SetBasicAuth (user password : string) (r : Request) : Request :=
  {| Method := Method r; URL := URL r; UserAgent := UserAgent r;
     BasicAuth := Some (user, password) |}.

End http.

(** ** The declarations of go-mackerel-plugin that the plugins fill in *)

Module mp.

(** [mp.Metrics] and [mp.Graphs]; a field left out of a literal has its
    zero value. [Type_] is the field [Type]; [GLabel] and [GMetrics] are
    the fields [Label] and [Metrics] of [mp.Graphs]. *)
Record Metrics : Type := {
  Name : string;
  Label : string;
  Diff : bool;
  Stacked : bool;
  Type_ : string
}.

Record Graphs : Type := {
  GLabel : string;
  Unit : string;
  GMetrics : list Metrics
}.

Definition metric (name label : string) (diff stacked : bool) : Metrics :=
  {| Name := name; Label := label; Diff := diff; Stacked := stacked; Type_ := "" |}.

Definition metric_uint64 (name label : string) (diff : bool) : Metrics :=
  {| Name := name; Label := label; Diff := diff; Stacked := false; Type_ := "uint64" |}.

(** The metrics a graph definition declares, graph by graph. *)
Definition metrics_of (graphs : list (string * Graphs)) : list Metrics :=
  graphs.*2 ≫= GMetrics.

Definition declared (graphdef : gmap string Graphs) : gset string :=
  list_to_set (Name <$> metrics_of (map_to_list graphdef)).

End mp.

(** ** mackerel-plugin-elasticsearch *)

Module Elasticsearch.

(** What [encoding/json] stores in an [interface{}]. *)
Inductive value : Type :=
| Null
| Bool (b : bool)
| Float64 (f : float)
| String (s : string)
| Array (l : list value)
| Object (m : gmap string value).

(** A response body as the JSON decoder sees it: no JSON value can be read
    from it (a syntax error, or reading the body fails), or one JSON
    value. *)
Inductive payload : Type :=
| NotJSON (syntax_error : string)
| JSON (v : value).

(** [metricPlace], in the order of the source text. *)
Definition metricPlace_table : list (string * list string) := [
  ("http_opened", ["http"; "total_opened"]);
  ("total_indexing_index", ["indices"; "indexing"; "index_total"]);
  ("total_indexing_delete", ["indices"; "indexing"; "delete_total"]);
  ("total_get", ["indices"; "get"; "total"]);
  ("total_search_query", ["indices"; "search"; "query_total"]);
  ("total_search_fetch", ["indices"; "search"; "fetch_total"]);
  ("total_merges", ["indices"; "merges"; "total"]);
  ("total_refresh", ["indices"; "refresh"; "total"]);
  ("total_flush", ["indices"; "flush"; "total"]);
  ("total_warmer", ["indices"; "warmer"; "total"]);
  ("total_percolate", ["indices"; "percolate"; "total"]);
  ("total_suggest", ["indices"; "suggest"; "total"]);
  ("docs_count", ["indices"; "docs"; "count"]);
  ("docs_deleted", ["indices"; "docs"; "deleted"]);
  ("fielddata_size", ["indices"; "fielddata"; "memory_size_in_bytes"]);
  ("filter_cache_size", ["indices"; "filter_cache"; "memory_size_in_bytes"]);
  ("segments_size", ["indices"; "segments"; "memory_in_bytes"]);
  ("segments_index_writer_size", ["indices"; "segments"; "index_writer_memory_in_bytes"]);
  ("segments_version_map_size", ["indices"; "segments"; "version_map_memory_in_bytes"]);
  ("segments_fixed_bit_set_size", ["indices"; "segments"; "fixed_bit_set_memory_in_bytes"]);
  ("evictions_fielddata", ["indices"; "fielddata"; "evictions"]);
  ("evictions_filter_cache", ["indices"; "filter_cache"; "evictions"]);
  ("heap_used", ["jvm"; "mem"; "heap_used_in_bytes"]);
  ("heap_max", ["jvm"; "mem"; "heap_max_in_bytes"]);
  ("threads_generic", ["thread_pool"; "generic"; "threads"]);
  ("threads_index", ["thread_pool"; "index"; "threads"]);
  ("threads_snapshot_data", ["thread_pool"; "snapshot_data"; "threads"]);
  ("threads_get", ["thread_pool"; "get"; "threads"]);
  ("threads_bench", ["thread_pool"; "bench"; "threads"]);
  ("threads_snapshot", ["thread_pool"; "snapshot"; "threads"]);
  ("threads_merge", ["thread_pool"; "merge"; "threads"]);
  ("threads_suggest", ["thread_pool"; "suggest"; "threads"]);
  ("threads_bulk", ["thread_pool"; "bulk"; "threads"]);
  ("threads_optimize", ["thread_pool"; "optimize"; "threads"]);
  ("threads_warmer", ["thread_pool"; "warmer"; "threads"]);
  ("threads_flush", ["thread_pool"; "flush"; "threads"]);
  ("threads_search", ["thread_pool"; "search"; "threads"]);
  ("threads_percolate", ["thread_pool"; "percolate"; "threads"]);
  ("threads_refresh", ["thread_pool"; "refresh"; "threads"]);
  ("threads_management", ["thread_pool"; "management"; "threads"]);
  ("threads_fetch_shard_started", ["thread_pool"; "fetch_shard_started"; "threads"]);
  ("threads_fetch_shard_store", ["thread_pool"; "fetch_shard_store"; "threads"]);
  ("threads_listener", ["thread_pool"; "listener"; "threads"]);
  ("count_rx", ["transport"; "rx_count"]);
  ("count_tx", ["transport"; "tx_count"]);
  ("open_file_descriptors", ["process"; "open_file_descriptors"]);
  ("compilations", ["script"; "compilations"]);
  ("cache_evictions", ["script"; "cache_evictions"]);
  ("compilation_limit_triggered", ["script"; "compilation_limit_triggered"])
].

Definition metricPlace : gmap string (list string) :=
  list_to_map metricPlace_table.
Arguments metricPlace : simpl never.

(** [getFloatValue]: the loop runs over [keys]; [rest] is non-empty exactly
    when [i+1 < len(keys)]. A missing key reads as nil, which matches
    neither type case. With no key at all the loop body never runs and the
    zero value of [val] is returned. *)
Fixpoint getFloatValue (s : gmap string value) (keys : list string) : outcome float :=
  match keys with
  | [] => Ok 0%float
  | k :: rest =>
      match rest with
      | _ :: _ =>
          match s !! k with
          | Some (Object m) => getFloatValue m rest
          | _ => Err "Cannot handle as a hash"
          end
      | [] =>
          match s !! k with
          | Some (Float64 f) => Ok f
          | _ => Err "Not float64"
          end
      end
  end.

Record ElasticsearchPlugin : Type := {
  URI : string;
  Prefix : string;
  LabelPrefix : string;
  Insecure : bool;
  User : string;
  Password : string;
  SuppressMissingError : bool
}.

(** [decoder.Decode(&s)] with [s map[string]interface{}]: the error of
    the decoder (syntax, or reading the body) is returned; the literal null
    leaves [s] nil without an error; any other JSON value that is not an
    object is a type error. *)
Definition Decode (body : payload) : outcome (gmap string value) :=
  match body with
  | NotJSON e => Err e
  | JSON (Object m) => Ok m
  | JSON Null => Ok ∅
  | JSON (Bool _) => Err "json: cannot unmarshal bool into Go value of type map[string]interface {}"
  | JSON (Float64 _) => Err "json: cannot unmarshal number into Go value of type map[string]interface {}"
  | JSON (String _) => Err "json: cannot unmarshal string into Go value of type map[string]interface {}"
  | JSON (Array _) => Err "json: cannot unmarshal array into Go value of type map[string]interface {}"
  end.

(** The dynamic type of the result of a map read, as the runtime names it;
    a missing key and the JSON value null both read as nil. *)
Definition dynamic_type (x : option value) : string :=
  match x with
  | None | Some Null => "nil"
  | Some (Bool _) => "bool"
  | Some (Float64 _) => "float64"
  | Some (String _) => "string"
  | Some (Array _) => "[]interface {}"
  | Some (Object _) => "map[string]interface {}"
  end.

(** The single-value type assertion [x.(map[string]interface{})], where
    [x] is the result of a map read: it panics with a
    [*runtime.TypeAssertionError] that names the dynamic type. *)
Definition assertObject (x : option value) : outcome (gmap string value) :=
  match x with
  | Some (Object m) => Ok m
  | _ => Panic ("interface conversion: interface {} is " +:+ dynamic_type x
                +:+ ", not map[string]interface {}")
  end.

(** The loop that picks the node name [n] out of the keys of [nodes]. *)
Fixpoint pickNode (n : string) (ks : list string) : outcome string :=
  match ks with
  | [] => Ok n
  | k :: rest =>
      if negb (String.eqb n "") then Err "Multiple node found"
      else pickNode k rest
  end.

Definition failed_to_find (k err : string) : string :=
  "Failed to find '" +:+ k +:+ "': " +:+ err.

(** The loop over [metricPlace]: the state is the map [stat] and the lines
    handed to [logger.Errorf] so far. An error of [getFloatValue] is logged
    unless suppressed, and the loop continues either way. *)
Fixpoint extract (suppress : bool) (node : gmap string value)
    (places : list (string * list string))
    (stat : gmap string float) (log : list string)
    : outcome (gmap string float * list string) :=
  match places with
  | [] => Ok (stat, log)
  | (k, v) :: rest =>
      match getFloatValue node v with
      | Err err =>
          extract suppress node rest stat
            (if negb suppress then log ++ [failed_to_find k err] else log)
      | r =>
          val ← r;
          extract suppress node rest (<[k := val]> stat) log
      end
  end.

Definition client (p : ElasticsearchPlugin) : http.Client :=
  {| http.Transport := http.TLSTransport (Insecure p); http.Timeout := 0 |}.

Definition request (p : ElasticsearchPlugin) (req : http.Request) : http.Request :=
  let req := http.SetUserAgent "mackerel-plugin-elasticsearch" req in
  if negb (String.eqb (User p) "") && negb (String.eqb (Password p) "")
  then http.SetBasicAuth (User p) (Password p) req
  else req.

(** [FetchMetrics]: the metric map, together with the error-log lines. *)
Definition FetchMetrics (range : ranger) (w : http.World payload)
    (p : ElasticsearchPlugin) : outcome (gmap string float * list string) :=
  req ← http.NewRequest w "GET" (URI p +:+ "/_nodes/_local/stats");
  let req := request p req in
  resp ← http.Do (client p) (http.remote w (client p) req);
  s ← Decode (http.Body resp);
  nodes ← assertObject (s !! "nodes");
  n ← pickNode "" (range _ nodes).*1;
  node ← assertObject (nodes !! n);
  extract (SuppressMissingError p) node (range _ metricPlace) ∅ [].

(** [GraphDefinition], in the order of the source text. *)
Definition graphdef_table (p : ElasticsearchPlugin) : list (string * mp.Graphs) := [
  (Prefix p +:+ ".http",
   {| mp.GLabel := LabelPrefix p +:+ " HTTP"; mp.Unit := "integer";
      mp.GMetrics := [mp.metric "http_opened" "Opened" true false] |});
  (Prefix p +:+ ".indices",
   {| mp.GLabel := LabelPrefix p +:+ " Indices"; mp.Unit := "integer";
      mp.GMetrics := [
        mp.metric "total_indexing_index" "Indexing-Index" true true;
        mp.metric "total_indexing_delete" "Indexing-Delete" true true;
        mp.metric "total_get" "Get" true true;
        mp.metric "total_search_query" "Search-Query" true true;
        mp.metric "total_search_fetch" "Search-fetch" true true;
        mp.metric "total_merges" "Merges" true true;
        mp.metric "total_refresh" "Refresh" true true;
        mp.metric "total_flush" "Flush" true true;
        mp.metric "total_warmer" "Warmer" true true;
        mp.metric "total_percolate" "Percolate" true true;
        mp.metric "total_suggest" "Suggest" true true] |});
  (Prefix p +:+ ".indices.docs",
   {| mp.GLabel := LabelPrefix p +:+ " Indices Docs"; mp.Unit := "integer";
      mp.GMetrics := [
        mp.metric "docs_count" "Count" false true;
        mp.metric "docs_deleted" "Deleted" false true] |});
  (Prefix p +:+ ".indices.memory_size",
   {| mp.GLabel := LabelPrefix p +:+ " Indices Memory Size"; mp.Unit := "bytes";
      mp.GMetrics := [
        mp.metric "fielddata_size" "Fielddata" false true;
        mp.metric "filter_cache_size" "Filter Cache" false true;
        mp.metric "segments_size" "Lucene Segments" false true;
        mp.metric "segments_index_writer_size" "Lucene Segments Index Writer" false true;
        mp.metric "segments_version_map_size" "Lucene Segments Version Map" false true;
        mp.metric "segments_fixed_bit_set_size" "Lucene Segments Fixed Bit Set" false true] |});
  (Prefix p +:+ ".indices.evictions",
   {| mp.GLabel := LabelPrefix p +:+ " Indices Evictions"; mp.Unit := "integer";
      mp.GMetrics := [
        mp.metric "evictions_fielddata" "Fielddata" true false;
        mp.metric "evictions_filter_cache" "Filter Cache" true false] |});
  (Prefix p +:+ ".jvm.heap",
   {| mp.GLabel := LabelPrefix p +:+ " JVM Heap Mem"; mp.Unit := "bytes";
      mp.GMetrics := [
        mp.metric "heap_used" "Used" false false;
        mp.metric "heap_max" "Max" false false] |});
  (Prefix p +:+ ".thread_pool.threads",
   {| mp.GLabel := LabelPrefix p +:+ " Thread-Pool Threads"; mp.Unit := "integer";
      mp.GMetrics := [
        mp.metric "threads_generic" "Generic" false true;
        mp.metric "threads_index" "Index" false true;
        mp.metric "threads_snapshot_data" "Snapshot Data" false true;
        mp.metric "threads_get" "Get" false true;
        mp.metric "threads_bench" "Bench" false true;
        mp.metric "threads_snapshot" "Snapshot" false true;
        mp.metric "threads_merge" "Merge" false true;
        mp.metric "threads_suggest" "Suggest" false true;
        mp.metric "threads_bulk" "Bulk" false true;
        mp.metric "threads_optimize" "Optimize" false true;
        mp.metric "threads_warmer" "Warmer" false true;
        mp.metric "threads_flush" "Flush" false true;
        mp.metric "threads_search" "Search" false true;
        mp.metric "threads_percolate" "Percolate" false true;
        mp.metric "threads_refresh" "Refresh" false true;
        mp.metric "threads_management" "Management" false true;
        mp.metric "threads_fetch_shard_started" "Fetch Shard Started" false true;
        mp.metric "threads_fetch_shard_store" "Fetch Shard Store" false true;
        mp.metric "threads_listener" "Listener" false true] |});
  (Prefix p +:+ ".transport.count",
   {| mp.GLabel := LabelPrefix p +:+ " Transport Count"; mp.Unit := "integer";
      mp.GMetrics := [
        mp.metric "count_rx" "TX" true false;
        mp.metric "count_tx" "RX" true false] |});
  (Prefix p +:+ ".process",
   {| mp.GLabel := LabelPrefix p +:+ " Process"; mp.Unit := "integer";
      mp.GMetrics := [
        mp.metric "open_file_descriptors" "Open File Descriptors" false false] |});
  (Prefix p +:+ ".script",
   {| mp.GLabel := LabelPrefix p +:+ " Script"; mp.Unit := "integer";
      mp.GMetrics := [
        mp.metric "compilations" "Compilations" true false;
        mp.metric "cache_evictions" "Cache Evictions" true false;
        mp.metric "compilation_limit_triggered" "Compilation Limit Triggered" true false] |})
].

Definition GraphDefinition (p : ElasticsearchPlugin) : gmap string mp.Graphs :=
  list_to_map (graphdef_table p).

End Elasticsearch.

(** ** mackerel-plugin-haproxy *)

Module HAProxy.

Definition graphdef_table : list (string * mp.Graphs) := [
  ("haproxy.total.sessions",
   {| mp.GLabel := "HAProxy Total Sessions"; mp.Unit := "integer";
      mp.GMetrics := [mp.metric "sessions" "Sessions" true false] |});
  ("haproxy.total.bytes",
   {| mp.GLabel := "HAProxy Total Bytes"; mp.Unit := "integer";
      mp.GMetrics := [
        mp.metric "bytes_in" "Bytes In" true false;
        mp.metric "bytes_out" "Bytes Out" true false] |});
  ("haproxy.total.connection_errors",
   {| mp.GLabel := "HAProxy Total Connection Errors"; mp.Unit := "integer";
      mp.GMetrics := [mp.metric "connection_errors" "Connection Errors" true false] |})
].

Definition graphdef : gmap string mp.Graphs := list_to_map graphdef_table.

Record HAProxyPlugin : Type := {
  URI : string;
  Username : string;
  Password : string;
  Socket : string
}.

(** The records [csv.Reader.Read] delivers before [io.EOF], one list of
    columns per call. [parseStats] looks at the error of a read only to
    detect [io.EOF]; a read that fails otherwise delivers the nil record. *)
Abbreviation csv_records := (list (list string)).

(** What a Unix socket does after [net.Dial]: the dial fails, or the peer
    answers the command with records and closes, or it never answers. *)
Inductive socket_behaviour : Type :=
| DialFails (err : string)
| Streams (rows : csv_records)
| Stalls.

Record World : Type := {
  web : http.World csv_records;
  unix : string → socket_behaviour
}.

(** [columns[i]] panics when [i] is out of range. *)
Definition index (columns : list string) (i : nat) : outcome string :=
  match columns !! i with
  | Some c => Ok c
  | None => Panic "runtime error: index out of range"
  end.

(** [stat[name] += data]: a key not yet in the map reads as 0. *)
Definition add_to (name : string) (data : float) (stat : gmap string float)
    : gmap string float :=
  <[name := (default 0 (stat !! name) + data)%float]> stat.

Definition too_short : string :=
  "length of stats csv is too short (specified uri/socket may be wrong)".

Section parse.

(** [strconv.ParseFloat(s, 64)]: [None] when it returns an error. *)
Variable ParseFloat : string → option float.

Definition parse_column (columns : list string) (i : nat) : outcome float :=
  c ← index columns i;
  match ParseFloat c with
  | Some data => Ok data
  | None => Err "cannot get values"
  end.

(** The body of the loop of [parseStats] for the record [columns]:
    [continue] hands the accumulators on unchanged, [return nil, err] ends
    the loop. *)
Definition parseRow (stat : gmap string float) (columns : list string)
    : outcome (gmap string float) :=
  if (length columns <? 60)%nat then Err too_short
  else
    svname ← index columns 1;
    if negb (String.eqb svname "BACKEND") then Ok stat
    else
      data ← parse_column columns 7;
      let stat := add_to "sessions" data stat in
      data ← parse_column columns 8;
      let stat := add_to "bytes_in" data stat in
      data ← parse_column columns 9;
      let stat := add_to "bytes_out" data stat in
      data ← parse_column columns 13;
      let stat := add_to "connection_errors" data stat in
      Ok stat.

(** The loop of [parseStats]: [reader.Read] until [io.EOF]. *)
Fixpoint parseStats_loop (stat : gmap string float) (rows : csv_records)
    : outcome (gmap string float) :=
  match rows with
  | [] => Ok stat
  | columns :: rest =>
      stat ← parseRow stat columns;
      parseStats_loop stat rest
  end.

Definition parseStats (statsBody : csv_records) : outcome (gmap string float) :=
  parseStats_loop ∅ statsBody.

Definition client : http.Client :=
  {| http.Transport := http.DefaultTransport; http.Timeout := 5 * http.second |}.

Definition request (p : HAProxyPlugin) (req : http.Request) : http.Request :=
  if negb (String.eqb (Username p) "")
  then http.SetBasicAuth (Username p) (Password p) req
  else req.

Definition fetchMetricsFromTCP (w : World) (p : HAProxyPlugin)
    : outcome (gmap string float) :=
  let requestURI := URI p +:+ ";csv;norefresh" in
  req ← http.NewRequest (web w) "GET" requestURI;
  let req := request p req in
  resp ← http.Do client (http.remote (web w) client req);
  if negb (http.StatusCode resp =? 200)%Z
  then Err ("Request failed. Status: " +:+ http.Status resp +:+ ", URI: " +:+ requestURI)
  else parseStats (http.Body resp).

(** No deadline is set on the connection: a peer that never answers keeps
    the reader waiting. *)
Definition fetchMetricsFromSocket (w : World) (p : HAProxyPlugin)
    : outcome (gmap string float) :=
  match unix w (Socket p) with
  | DialFails err => Err err
  | Streams rows => parseStats rows
  | Stalls => Blocked
  end.

Definition FetchMetrics (w : World) (p : HAProxyPlugin) : outcome (gmap string float) :=
  if String.eqb (Socket p) "" then fetchMetricsFromTCP w p
  else fetchMetricsFromSocket w p.

End parse.

Definition GraphDefinition (p : HAProxyPlugin) : gmap string mp.Graphs := graphdef.

End HAProxy.

(** ** mackerel-plugin-php-fpm *)

Module PhpFpm.

Record PhpFpmPlugin : Type := {
  URL : string;
  Prefix : string;
  LabelPrefix : string;
  Timeout : N;
  FastCGI : bool
}.

Record PhpFpmStatus : Type := {
  Pool : string;
  ProcessManager : string;
  StartTime : N;
  StartSince : N;
  AcceptedConn : N;
  ListenQueue : N;
  MaxListenQueue : N;
  ListenQueueLen : N;
  IdleProcesses : N;
  ActiveProcesses : N;
  TotalProcesses : N;
  MaxActiveProcesses : N;
  MaxChildrenReached : N;
  SlowRequests : N
}.

Definition graphdef_table (p : PhpFpmPlugin) : list (string * mp.Graphs) := [
  ("processes",
   {| mp.GLabel := LabelPrefix p +:+ " Processes"; mp.Unit := "integer";
      mp.GMetrics := [
        mp.metric_uint64 "total_processes" "Total Processes" false;
        mp.metric_uint64 "active_processes" "Active Processes" false;
        mp.metric_uint64 "idle_processes" "Idle Processes" false] |});
  ("max_active_processes",
   {| mp.GLabel := LabelPrefix p +:+ " Max Active Processes"; mp.Unit := "integer";
      mp.GMetrics := [
        mp.metric_uint64 "max_active_processes" "Max Active Processes" false] |});
  ("max_children_reached",
   {| mp.GLabel := LabelPrefix p +:+ " Max Children Reached"; mp.Unit := "integer";
      mp.GMetrics := [
        mp.metric_uint64 "max_children_reached" "Max Children Reached" false] |});
  ("queue",
   {| mp.GLabel := LabelPrefix p +:+ " Queue"; mp.Unit := "integer";
      mp.GMetrics := [
        mp.metric_uint64 "listen_queue" "Listen Queue" false;
        mp.metric_uint64 "listen_queue_len" "Listen Queue Len" false] |});
  ("max_listen_queue",
   {| mp.GLabel := LabelPrefix p +:+ " Max Listen Queue"; mp.Unit := "integer";
      mp.GMetrics := [
        mp.metric_uint64 "max_listen_queue" "Max Listen Queue" false] |});
  ("slow_requests",
   {| mp.GLabel := LabelPrefix p +:+ " Slow Requests"; mp.Unit := "integer";
      mp.GMetrics := [
        mp.metric_uint64 "slow_requests" "Slow Requests" false] |})
].

Definition GraphDefinition (p : PhpFpmPlugin) : gmap string mp.Graphs :=
  list_to_map (graphdef_table p).

(** A member of the status object, as decoding into a [uint64] or a
    [string] field tells them apart: an unsigned integer literal, a string,
    or anything else. *)
Inductive member : Type :=
| Uint (n : N)
| Text (s : string)
| Other.

(** A response body as [ioutil.ReadAll] and [json.Unmarshal] see it:
    reading it to its end fails, or the bytes read are not JSON, the JSON
    value null, an object, or another JSON value. The members of an object
    are keyed by the field tag they are stored under. *)
Inductive payload : Type :=
| NotJSON (syntax_error : string)
| JSONNull
| JSONObject (members : gmap string member)
| JSONOther
| Unreadable (err : string).

Definition uint64_field (members : gmap string member) (tag : string) : N :=
  match members !! tag with
  | Some (Uint n) => if (n <? 2 ^ 64)%N then n else 0%N
  | _ => 0%N
  end.

Definition string_field (members : gmap string member) (tag : string) : string :=
  match members !! tag with
  | Some (Text s) => s
  | _ => ""
  end.

Definition zero_status : PhpFpmStatus :=
  {| Pool := ""; ProcessManager := ""; StartTime := 0; StartSince := 0;
     AcceptedConn := 0; ListenQueue := 0; MaxListenQueue := 0;
     ListenQueueLen := 0; IdleProcesses := 0; ActiveProcesses := 0;
     TotalProcesses := 0; MaxActiveProcesses := 0; MaxChildrenReached := 0;
     SlowRequests := 0 |}.

(** [ioutil.ReadAll(res.Body)]: the bytes, or the error of the read that
    fails. *)
Definition ReadAll (body : payload) : outcome payload :=
  match body with
  | Unreadable err => Err err
  | _ => Ok body
  end.

(** [json.Unmarshal(body, &status)] for a nil [status *PhpFpmStatus]: the
    pointer afterwards ([None] is nil). Invalid JSON is rejected before
    anything is stored, and null stores nil; for any other value a
    [PhpFpmStatus] is allocated, and a member that does not fit its field
    leaves the field at zero. The error [Unmarshal] returns is dropped by
    [getStatus] and is not part of the result. [getStatus] has returned
    before it gets here when the body could not be read. *)
Definition Unmarshal (body : payload) : option PhpFpmStatus :=
  match body with
  | Unreadable _ => None
  | NotJSON _ => None
  | JSONNull => None
  | JSONOther => Some zero_status
  | JSONObject m =>
      Some {| Pool := string_field m "pool";
              ProcessManager := string_field m "process manager";
              StartTime := uint64_field m "start time";
              StartSince := uint64_field m "start since";
              AcceptedConn := uint64_field m "accepted conn";
              ListenQueue := uint64_field m "listen queue";
              MaxListenQueue := uint64_field m "max listen queue";
              ListenQueueLen := uint64_field m "listen queue len";
              IdleProcesses := uint64_field m "idle processes";
              ActiveProcesses := uint64_field m "active processes";
              TotalProcesses := uint64_field m "total processes";
              MaxActiveProcesses := uint64_field m "max active processes";
              MaxChildrenReached := uint64_field m "max children reached";
              SlowRequests := uint64_field m "slow requests" |}
  end.

(** Conversion to and multiplication in [int64] wrap around. *)
Definition wrap_int64 (z : Z) : Z := ((z + 2 ^ 63) `mod` 2 ^ 64 - 2 ^ 63)%Z.

(** [time.Duration(time.Duration(p.Timeout) * time.Second)] *)
Definition timeout (p : PhpFpmPlugin) : Z :=
  wrap_int64 (wrap_int64 (Z.of_N (Timeout p)) * http.second).

Definition client (p : PhpFpmPlugin) : http.Client :=
  {| http.Transport :=
       if FastCGI p then http.FastCGITransport (timeout p) else http.DefaultTransport;
     http.Timeout := timeout p |}.

Definition request (req : http.Request) : http.Request :=
  http.SetUserAgent "mackerel-plugin-php-fpm" req.

(** [getStatus] hands on the error of [http.NewRequest], of [client.Do] and
    of [ioutil.ReadAll], and no other. *)
Definition getStatus (w : http.World payload) (p : PhpFpmPlugin)
    : outcome (option PhpFpmStatus) :=
  let url := URL p in
  req ← http.NewRequest w "GET" url;
  let req := request req in
  res ← http.Do (client p) (http.remote w (client p) req);
  body ← ReadAll (http.Body res);
  let status := Unmarshal body in
  Ok status.

(** Reading a field through a nil [*PhpFpmStatus] panics. *)
Definition deref (status : option PhpFpmStatus) : outcome PhpFpmStatus :=
  match status with
  | Some st => Ok st
  | None => Panic "runtime error: invalid memory address or nil pointer dereference"
  end.

Definition FetchMetrics (w : http.World payload) (p : PhpFpmPlugin)
    : outcome (gmap string N) :=
  match getStatus w p with
  | Err err => Err ("Failed to fetch PHP-FPM metrics: " +:+ err)
  | r =>
      status ← r;
      status ← deref status;
      Ok (list_to_map [
        ("total_processes", TotalProcesses status);
        ("active_processes", ActiveProcesses status);
        ("idle_processes", IdleProcesses status);
        ("max_active_processes", MaxActiveProcesses status);
        ("max_children_reached", MaxChildrenReached status);
        ("listen_queue", ListenQueue status);
        ("listen_queue_len", ListenQueueLen status);
        ("max_listen_queue", MaxListenQueue status);
        ("slow_requests", SlowRequests status)])
  end.

End PhpFpm.

(** ** The helper the plugins hand themselves to

    [mp.NewMackerelPlugin(...).Run()] lives in the go-mackerel-plugin
    package, outside the plugins' sources. *)

Module Helper.

(** Modelled from the spec: the previous-observation record of the
    go-mackerel-plugin helper, which is not among the sources. Section 3:
    a key→(timestamp, value) record, read at the start of a run if
    present. *)
Record observation (V : Type) : Type := {
  seen_at : Z;
  seen_value : V
}.
Arguments seen_at {V} _.
Arguments seen_value {V} _.

(** Modelled from the spec: the output line of the emitter of
    go-mackerel-plugin (section 4.5): name, value and unix timestamp. *)
Record line (V : Type) : Type := {
  metric_name : string;
  metric_value : V;
  unix_timestamp : Z
}.
Arguments metric_name {V} _.
Arguments metric_value {V} _.
Arguments unix_timestamp {V} _.

(** Modelled from the spec: what a run of the go-mackerel-plugin helper
    leaves behind (sections 4.5 and 6): the lines on standard output, the
    diagnostics on standard error, and the exit status. *)
Record process (V : Type) : Type := {
  stdout : list (line V);
  stderr : list string;
  exit_status : Z
}.
Arguments stdout {V} _.
Arguments stderr {V} _.
Arguments exit_status {V} _.

(** The order of [float64] values, as the comparison of binary64 decides
    it; a NaN is neither below nor at least any value. *)
Definition float_lt (x y : float) : Prop := PrimFloat.compare x y = FLt.

Definition float_ge (x y : float) : Prop :=
  PrimFloat.compare x y = FGt ∨ PrimFloat.compare x y = FEq.

(** Modelled from the spec: the span [now - previous_timestamp] of section
    4.4, a number of seconds (below [2^63]), as a [float64]. *)
Definition seconds (dt : Z) : float := PrimFloat.of_uint63 (Uint63.of_Z dt).

(** Modelled from the spec: the counter-to-rate conversion of the
    go-mackerel-plugin helper, which is not among the sources. Sections 4.4
    and 8: [(current - previous) / (now - previous_timestamp)], and zero
    when the counter went down. *)
Definition rate (previous : observation float) (current : float) (now : Z) : float :=
  match PrimFloat.compare current (seen_value previous) with
  | FLt => 0%float
  | _ => ((current - seen_value previous) / seconds (now - seen_at previous))%float
  end.

Section emit.

Context {V : Type}.
Variable rate_of : observation V → V → Z → V.
Variable previous : gmap string (observation V).
Variable now : Z.

(** Modelled from the spec: what the go-mackerel-plugin helper, which is
    not among the sources, reports for one declared metric. Section 4.4: a
    counter is reported as its rate and omitted when there is no previous
    record; a gauge passes through unchanged. Section 4.5: nothing is
    written for a metric without a sample. *)
Definition report (stat : gmap string V) (m : mp.Metrics) : option (line V) :=
  v ← stat !! mp.Name m;
  v ← (if mp.Diff m
       then prev ← previous !! mp.Name m; Some (rate_of prev v now)
       else Some v);
  Some {| metric_name := mp.Name m; metric_value := v; unix_timestamp := now |}.

(** Modelled from the spec: the emitter of the go-mackerel-plugin helper
    (section 4.5), one line per declared metric that has a sample. *)
Definition emit (graphdef : gmap string mp.Graphs) (stat : gmap string V)
    : list (line V) :=
  omap (report stat) (mp.metrics_of (map_to_list graphdef)).

(** Modelled from the spec: [Run] of the go-mackerel-plugin helper, which
    is not among the sources. Section 4.5: on an error of an earlier stage
    one diagnostic line goes to standard error and the exit status is
    non-zero; on success the lines go to standard output and the status is
    zero. A panic ends a Go process with status 2 and its message on
    standard error. A fetch that never returns never exits: [None]. *)
Definition Run (graphdef : gmap string mp.Graphs)
    (fetched : outcome (gmap string V)) : option (process V) :=
  match fetched with
  | Ok stat => Some {| stdout := emit graphdef stat; stderr := []; exit_status := 0 |}
  | Err e => Some {| stdout := []; stderr := [e]; exit_status := 1 |}
  | Panic msg => Some {| stdout := []; stderr := ["panic: " +:+ msg]; exit_status := 2 |}
  | Blocked => None
  end.

End emit.

End Helper.

(** ** The plugins' [Do]: the plugin handed to the helper *)

Definition elasticsearch_Do (range : ranger) (w : http.World Elasticsearch.payload)
    (p : Elasticsearch.ElasticsearchPlugin)
    (previous : gmap string (Helper.observation float)) (now : Z)
    : option (Helper.process float) :=
  let fetched := Elasticsearch.FetchMetrics range w p in
  let log := match fetched with Ok (_, log) => log | _ => [] end in
  (λ pr, {| Helper.stdout := Helper.stdout pr;
            Helper.stderr := log ++ Helper.stderr pr;
            Helper.exit_status := Helper.exit_status pr |})
  <$> Helper.Run Helper.rate previous now (Elasticsearch.GraphDefinition p)
        (fst <$> fetched).

Definition haproxy_Do (ParseFloat : string → option float) (w : HAProxy.World)
    (p : HAProxy.HAProxyPlugin)
    (previous : gmap string (Helper.observation float)) (now : Z)
    : option (Helper.process float) :=
  Helper.Run Helper.rate previous now (HAProxy.GraphDefinition p)
    (HAProxy.FetchMetrics ParseFloat w p).

Definition phpfpm_Do (w : http.World PhpFpm.payload) (p : PhpFpm.PhpFpmPlugin)
    (now : Z) : option (Helper.process N) :=
  Helper.Run (λ _ v _, v) ∅ now (PhpFpm.GraphDefinition p)
    (PhpFpm.FetchMetrics w p).

(** ** Vocabulary of the properties *)

Module Walk.
Import Elasticsearch.

(** The walk reaches a non-terminal key whose value is missing or is not a
    nested mapping. *)
Inductive broken_path : gmap string value → list string → Prop :=
| broken_here s k rest :
    rest ≠ [] → (∀ m, s !! k ≠ Some (Object m)) → broken_path s (k :: rest)
| broken_below s k m rest :
    s !! k = Some (Object m) → broken_path m rest → broken_path s (k :: rest).

(** The walk reaches the terminal key, whose value is missing or is not a
    [float64]. *)
Inductive bad_leaf : gmap string value → list string → Prop :=
| bad_leaf_here s k :
    (∀ f, s !! k ≠ Some (Float64 f)) → bad_leaf s [k]
| bad_leaf_below s k m rest :
    rest ≠ [] → s !! k = Some (Object m) → bad_leaf m rest →
    bad_leaf s (k :: rest).

(** Following the path from the root ends at the number [f]. *)
Inductive leads_to : gmap string value → list string → float → Prop :=
| leads_here s k f :
    s !! k = Some (Float64 f) → leads_to s [k] f
| leads_below s k m rest f :
    rest ≠ [] → s !! k = Some (Object m) → leads_to m rest f →
    leads_to s (k :: rest) f.

End Walk.

Module EsSpec.
Import Elasticsearch.

(** The target answered the request of [FetchMetrics] with [resp]. *)
Definition responds (w : http.World payload) (p : ElasticsearchPlugin)
    (resp : http.Response payload) : Prop :=
  ∃ req,
    http.NewRequest w "GET" (URI p +:+ "/_nodes/_local/stats") = Ok req
    ∧ http.Do (client p) (http.remote w (client p) (request p req)) = Ok resp.

(** The node object carries the declared metric [k], with the number [v]. *)
Definition present (node : gmap string value) (k : string) (v : float) : Prop :=
  ∃ path, metricPlace !! k = Some path ∧ Walk.leads_to node path v.

(** The error lines for the places that cannot be read off [node]. *)
Definition misses (node : gmap string value)
    (places : list (string * list string)) : list string :=
  omap (λ '(k, path),
          match getFloatValue node path with
          | Err err => Some (failed_to_find k err)
          | _ => None
          end) places.

End EsSpec.

Module HaSpec.
Import HAProxy.

(** The discriminator of a record: its second column is [BACKEND]. *)
Definition backend (columns : list string) : bool :=
  match columns !! 1 with
  | Some svname => String.eqb svname "BACKEND"
  | None => false
  end.

Definition has_backend (rows : csv_records) : bool := existsb backend rows.

(** The map with the four accumulators. *)
Definition sums (sessions bytes_in bytes_out connection_errors : float)
    : gmap string float :=
  {[ "sessions" := sessions; "bytes_in" := bytes_in; "bytes_out" := bytes_out;
     "connection_errors" := connection_errors ]}.

(** A sum of [float64]s, added up from 0 in the order of the rows. *)
Definition total (xs : list float) : float := foldl PrimFloat.add 0%float xs.

Section columns.

Variable ParseFloat : string → option float.

(** Column [i] of a record is there and numeric. *)
Definition numeric (columns : list string) (i : nat) : Prop :=
  ∃ c x, columns !! i = Some c ∧ ParseFloat c = Some x.

(** Every record has the minimum width, and the designated columns of the
    [BACKEND] records are numeric. *)
Definition well_formed (rows : csv_records) : Prop :=
  Forall (λ columns,
            (60 ≤ length columns)%nat
            ∧ (backend columns = true →
               numeric columns 7 ∧ numeric columns 8
               ∧ numeric columns 9 ∧ numeric columns 13)) rows.

(** The numbers in column [i] of the [BACKEND] records, in order. *)
Fixpoint column_values (i : nat) (rows : csv_records) : list float :=
  match rows with
  | [] => []
  | columns :: rest =>
      if backend columns then
        match columns !! i ≫= ParseFloat with
        | Some x => x :: column_values i rest
        | None => column_values i rest
        end
      else column_values i rest
  end.

End columns.

End HaSpec.

Module NetSpec.

(** The target does not respond within [limit] nanoseconds: the head of
    its response is not there by then. *)
Definition late {B} (limit : Z) (b : http.behaviour B) : Prop :=
  b = http.Silent ∨ ∃ d r, b = http.Answers d r ∧ (limit < d)%Z.

(** The HAProxy web endpoint got the request of [fetchMetricsFromTCP] and
    treats it as [b]. *)
Definition haproxy_asked (w : HAProxy.World) (p : HAProxy.HAProxyPlugin)
    (b : http.behaviour (list (list string))) : Prop :=
  ∃ req,
    http.NewRequest (HAProxy.web w) "GET" (HAProxy.URI p +:+ ";csv;norefresh") = Ok req
    ∧ http.remote (HAProxy.web w) HAProxy.client (HAProxy.request p req) = b.

Definition haproxy_responds (w : HAProxy.World) (p : HAProxy.HAProxyPlugin)
    (resp : http.Response (list (list string))) : Prop :=
  ∃ b, haproxy_asked w p b ∧ http.Do HAProxy.client b = Ok resp.

(** The same for [getStatus] of PHP-FPM. *)
Definition phpfpm_asked (w : http.World PhpFpm.payload) (p : PhpFpm.PhpFpmPlugin)
    (b : http.behaviour PhpFpm.payload) : Prop :=
  ∃ req,
    http.NewRequest w "GET" (PhpFpm.URL p) = Ok req
    ∧ http.remote w (PhpFpm.client p) (PhpFpm.request req) = b.

(** The target responds with [res], and [getStatus] has read its body to
    the end. *)
Definition phpfpm_responds (w : http.World PhpFpm.payload) (p : PhpFpm.PhpFpmPlugin)
    (res : http.Response PhpFpm.payload) : Prop :=
  ∃ b, phpfpm_asked w p b ∧ http.Do (PhpFpm.client p) b = Ok res
       ∧ PhpFpm.ReadAll (http.Body res) = Ok (http.Body res).

(** The same for [FetchMetrics] of Elasticsearch. *)
Definition elasticsearch_asked (w : http.World Elasticsearch.payload)
    (p : Elasticsearch.ElasticsearchPlugin)
    (b : http.behaviour Elasticsearch.payload) : Prop :=
  ∃ req,
    http.NewRequest w "GET" (Elasticsearch.URI p +:+ "/_nodes/_local/stats") = Ok req
    ∧ http.remote w (Elasticsearch.client p) (Elasticsearch.request p req) = b.

End NetSpec.

Module SchemaSpec.

(** The records the HAProxy plugin got to read: the body of a 200 response,
    or what the Unix socket streamed. *)
Definition delivers (w : HAProxy.World) (p : HAProxy.HAProxyPlugin)
    (rows : list (list string)) : Prop :=
  (HAProxy.Socket p = ""
   ∧ ∃ resp, NetSpec.haproxy_responds w p resp
             ∧ http.StatusCode resp = 200%Z ∧ http.Body resp = rows)
  ∨ (HAProxy.Socket p ≠ "" ∧ HAProxy.unix w (HAProxy.Socket p) = HAProxy.Streams rows).

(** The member of the PHP-FPM status object that each metric is read from. *)
Definition phpfpm_tags : list (string * string) := [
  ("total_processes", "total processes");
  ("active_processes", "active processes");
  ("idle_processes", "idle processes");
  ("max_active_processes", "max active processes");
  ("max_children_reached", "max children reached");
  ("listen_queue", "listen queue");
  ("listen_queue_len", "listen queue len");
  ("max_listen_queue", "max listen queue");
  ("slow_requests", "slow requests")
].

(** The status object carries the metric [k]. *)
Definition phpfpm_carried (members : gmap string PhpFpm.member) (k : string) : Prop :=
  ∃ tag, (k, tag) ∈ phpfpm_tags ∧ is_Some (members !! tag).

End SchemaSpec.

(** ** Concrete runs *)

Module Samples.

(** A target that answers every request after a millisecond. *)
Definition answering {B} (status : Z) (text : string) (body : B) : http.World B :=
  {| http.url_Parse := λ _, None;
     http.remote := λ _ _,
       http.Answers 1000000
         {| http.StatusCode := status; http.Status := text; http.Body := body |} |}.

(** A target that accepts the connection and never answers. *)
Definition silent {B} : http.World B :=
  {| http.url_Parse := λ _, None; http.remote := λ _ _, http.Silent |}.

Definition es_plugin : Elasticsearch.ElasticsearchPlugin :=
  {| Elasticsearch.URI := "http://localhost:9200";
     Elasticsearch.Prefix := "elasticsearch";
     Elasticsearch.LabelPrefix := "Elasticsearch";
     Elasticsearch.Insecure := false;
     Elasticsearch.User := "";
     Elasticsearch.Password := "";
     Elasticsearch.SuppressMissingError := false |}.

Definition es_quiet_plugin : Elasticsearch.ElasticsearchPlugin :=
  {| Elasticsearch.URI := "http://localhost:9200";
     Elasticsearch.Prefix := "elasticsearch";
     Elasticsearch.LabelPrefix := "Elasticsearch";
     Elasticsearch.Insecure := false;
     Elasticsearch.User := "";
     Elasticsearch.Password := "";
     Elasticsearch.SuppressMissingError := true |}.

(** A node that reports its heap use and nothing else. *)
Definition es_node : gmap string Elasticsearch.value :=
  {[ "jvm" := Elasticsearch.Object
       {[ "mem" := Elasticsearch.Object
            {[ "heap_used_in_bytes" := Elasticsearch.Float64 100 ]} ]} ]}.

Definition es_stats : gmap string Elasticsearch.value :=
  {[ "nodes" := Elasticsearch.Object {[ "n1" := Elasticsearch.Object es_node ]} ]}.

Definition es_body : Elasticsearch.payload :=
  Elasticsearch.JSON (Elasticsearch.Object es_stats).

(** The body of an error response: valid JSON without a "nodes" member. *)
Definition es_error_body : Elasticsearch.payload :=
  Elasticsearch.JSON (Elasticsearch.Object
    {[ "status" := Elasticsearch.Float64 500 ]}).

End Samples.

Module HaSamples.

(** A stand-in for [strconv.ParseFloat] on unsigned decimal integers. *)
Fixpoint digits (s : string) (acc : N) : option N :=
  match s with
  | EmptyString => Some acc
  | String.String c rest =>
      let n := Ascii.N_of_ascii c in
      if ((48 <=? n) && (n <=? 57))%N then digits rest (10 * acc + (n - 48))%N
      else None
  end.

Definition parse_decimal (s : string) : option float :=
  match s with
  | EmptyString => None
  | _ => n ← digits s 0%N; Some (PrimFloat.of_uint63 (Uint63.of_Z (Z.of_N n)))
  end.

(** A line of HAProxy's stats csv: proxy name, service name, and the
    columns stot (7), bin (8), bout (9) and econ (13) among 62. *)
Definition ha_row (pxname svname stot bin bout econ : string) : list string :=
  [pxname; svname; ""; ""; "0"; "0"; ""; stot; bin; bout; "0"; "0"; "0"; econ]
  ++ replicate 48 "".

Definition ha_rows : list (list string) := [
  ha_row "http-in" "FRONTEND" "7" "70" "700" "0";
  ha_row "app" "BACKEND" "10" "100" "200" "1";
  ha_row "stats" "FRONTEND" "3" "30" "300" "0"
].

Definition ha_frontend_only : list (list string) := [
  ha_row "http-in" "FRONTEND" "7" "70" "700" "0"
].

End HaSamples.

Module NetSamples.

Definition ha_plugin : HAProxy.HAProxyPlugin :=
  {| HAProxy.URI := "http://localhost:80/";
     HAProxy.Username := "";
     HAProxy.Password := "";
     HAProxy.Socket := "" |}.

Definition ha_world (web : http.World (list (list string))) : HAProxy.World :=
  {| HAProxy.web := web; HAProxy.unix := λ _, HAProxy.DialFails "no such file" |}.

Definition php_plugin : PhpFpm.PhpFpmPlugin :=
  {| PhpFpm.URL := "http://localhost/status?json";
     PhpFpm.Prefix := "php-fpm";
     PhpFpm.LabelPrefix := "PHP-FPM";
     PhpFpm.Timeout := 5;
     PhpFpm.FastCGI := false |}.

End NetSamples.

Module HelperSamples.

Definition sessions_metric : mp.Metrics := mp.metric "sessions" "Sessions" true false.

Definition heap_metric : mp.Metrics := mp.metric "heap_used" "Used" false false.

Definition sample_stat : gmap string float :=
  {[ "sessions" := 130%float; "heap_used" := 100%float ]}.

(** The record of a run sixty seconds earlier. *)
Definition sample_previous : gmap string (Helper.observation float) :=
  {[ "sessions" := {| Helper.seen_at := 1699999940; Helper.seen_value := 10%float |} ]}.

End HelperSamples.

(** ** From the flags to the plugin

    What [Do] of mackerel-plugin-elasticsearch builds from the values of its
    flags before it hands the plugin to the helper. *)

Module Flags.

(** Where the helper is told to keep the previous observation: a path
    ([helper.Tempfile = ...]) or a base name ([SetTempfileByBasename]). *)
Inductive tempfile : Type :=
| Tempfile (path : string)
| TempfileByBasename (name : string).

(** The flags of mackerel-plugin-elasticsearch after [flag.Parse]. *)
Record elasticsearch : Type := {
  es_scheme : string;
  es_host : string;
  es_port : string;
  es_metric_key_prefix : string;
  es_metric_label_prefix : string;
  es_tempfile : string;
  es_insecure : bool;
  es_user : string;
  es_password : string;
  es_suppress_missing_error : bool
}.

Definition elasticsearch_defaults : elasticsearch :=
  {| es_scheme := "http"; es_host := "localhost"; es_port := "9200";
     es_metric_key_prefix := "elasticsearch"; es_metric_label_prefix := "";
     es_tempfile := ""; es_insecure := false; es_user := ""; es_password := "";
     es_suppress_missing_error := false |}.

Section title.

(** [strings.Title] *)
Variable Title : string → string.

(** The plugin that [Do] of mackerel-plugin-elasticsearch fills in. *)
Definition elasticsearch_plugin (f : elasticsearch) : Elasticsearch.ElasticsearchPlugin :=
  {| Elasticsearch.URI := es_scheme f +:+ "://" +:+ es_host f +:+ ":" +:+ es_port f;
     Elasticsearch.Prefix := es_metric_key_prefix f;
     Elasticsearch.LabelPrefix :=
       if String.eqb (es_metric_label_prefix f) ""
       then Title (es_metric_key_prefix f)
       else es_metric_label_prefix f;
     Elasticsearch.Insecure := es_insecure f;
     Elasticsearch.User := es_user f;
     Elasticsearch.Password := es_password f;
     Elasticsearch.SuppressMissingError := es_suppress_missing_error f |}.

End title.

Definition elasticsearch_tempfile (f : elasticsearch) : tempfile :=
  if negb (String.eqb (es_tempfile f) "") then Tempfile (es_tempfile f)
  else TempfileByBasename
         ("mackerel-plugin-elasticsearch-" +:+ es_host f +:+ "-" +:+ es_port f).

End Flags.

(** ** More vocabulary *)

Module Descent.
Import Elasticsearch.

(** Following [keys] through nested mappings, as far as they all are
    mappings. *)
Fixpoint descend (s : gmap string value) (keys : list string)
    : option (gmap string value) :=
  match keys with
  | [] => Some s
  | k :: rest =>
      match s !! k with
      | Some (Object m) => descend m rest
      | _ => None
      end
  end.

(** A string without the character [-]. *)
Fixpoint dashless (s : string) : Prop :=
  match s with
  | EmptyString => True
  | String.String c rest => c ≠ "-"%char ∧ dashless rest
  end.

End Descent.

Module EsMore.
Import Elasticsearch.

(** The plugin with the flag [SuppressMissingError] set to [b]. *)
Definition set_suppress (b : bool) (p : ElasticsearchPlugin) : ElasticsearchPlugin :=
  {| URI := URI p; Prefix := Prefix p; LabelPrefix := LabelPrefix p;
     Insecure := Insecure p; User := User p; Password := Password p;
     SuppressMissingError := b |}.

(** The address [FetchMetrics] asks. *)
Definition stats_url (p : ElasticsearchPlugin) : string :=
  URI p +:+ "/_nodes/_local/stats".

(** The one request [FetchMetrics] sends. *)
Definition the_request (p : ElasticsearchPlugin) : http.Request :=
  {| http.Method := "GET";
     http.URL := stats_url p;
     http.UserAgent := Some "mackerel-plugin-elasticsearch";
     http.BasicAuth :=
       if decide (User p ≠ "" ∧ Password p ≠ "") then Some (User p, Password p)
       else None |}.

End EsMore.

Module HaMore.
Import HAProxy.

(** The one request [fetchMetricsFromTCP] sends. *)
Definition the_request (p : HAProxyPlugin) : http.Request :=
  {| http.Method := "GET";
     http.URL := URI p +:+ ";csv;norefresh";
     http.UserAgent := None;
     http.BasicAuth :=
       if decide (Username p ≠ "") then Some (Username p, Password p) else None |}.

(** One of the designated columns of the record is there and is not
    numeric. *)
Definition not_numeric (ParseFloat : string → option float)
    (columns : list string) : Prop :=
  ∃ i c, i ∈ [7; 8; 9; 13]%nat ∧ columns !! i = Some c ∧ ParseFloat c = None.

End HaMore.

Module MoreSamples.

(** The response of [Samples.answering 200 "200 OK" body]. *)
Definition ok_response {B} (body : B) : http.Response B :=
  {| http.StatusCode := 200; http.Status := "200 OK"; http.Body := body |}.

(** Another order of visiting a map: the reverse of [range_sorted]. *)
Definition range_reversed : ranger := λ V m, reverse (map_to_list m).

(** A body with two nodes. *)
Definition es_two_nodes : gmap string Elasticsearch.value :=
  {[ "nodes" := Elasticsearch.Object
       {[ "n1" := Elasticsearch.Null; "n2" := Elasticsearch.Null ]} ]}.

(** A body without a node. *)
Definition es_no_node : gmap string Elasticsearch.value :=
  {[ "nodes" := Elasticsearch.Object ∅ ]}.

(** A [BACKEND] record whose stot column is not a number. *)
Definition ha_bad_row : list string :=
  HaSamples.ha_row "app" "BACKEND" "n/a" "100" "200" "1".

(** A plugin that reads from a socket, and a world whose socket streams the
    sample records. *)
Definition ha_socket_plugin : HAProxy.HAProxyPlugin :=
  {| HAProxy.URI := "http://localhost:80/";
     HAProxy.Username := "";
     HAProxy.Password := "";
     HAProxy.Socket := "/var/run/haproxy.sock" |}.

Definition ha_socket_world : HAProxy.World :=
  {| HAProxy.web := Samples.silent;
     HAProxy.unix := λ _, HAProxy.Streams HaSamples.ha_rows |}.

(** A status object with one member. *)
Definition php_members : gmap string PhpFpm.member :=
  {[ "idle processes" := PhpFpm.Uint 3 ]}.

(** The PHP-FPM plugin started with [-timeout 0]. *)
Definition php_plugin_no_timeout : PhpFpm.PhpFpmPlugin :=
  {| PhpFpm.URL := "http://localhost/status?json";
     PhpFpm.Prefix := "php-fpm";
     PhpFpm.LabelPrefix := "PHP-FPM";
     PhpFpm.Timeout := 0;
     PhpFpm.FastCGI := false |}.

(** A world with one address only, the node statistics of
    [Samples.es_plugin]: no other address parses, and a request to any
    other address is refused. *)
Definition es_one_route : http.World Elasticsearch.payload :=
  {| http.url_Parse := λ url,
       if String.eqb url "http://localhost:9200/_nodes/_local/stats" then None
       else Some "parse: invalid URI for request";
     http.remote := λ _ req,
       if String.eqb (http.URL req) "http://localhost:9200/_nodes/_local/stats"
       then http.Answers 1000000 (ok_response Samples.es_body)
       else http.Refuses "dial tcp: connection refused" |}.

(** The flags of a run against the default host and port over TLS, with
    credentials and its own metric key prefix. *)
Definition es_tls_flags : Flags.elasticsearch :=
  {| Flags.es_scheme := "https"; Flags.es_host := "localhost";
     Flags.es_port := "9200";
     Flags.es_metric_key_prefix := "search"; Flags.es_metric_label_prefix := "Search";
     Flags.es_tempfile := ""; Flags.es_insecure := true;
     Flags.es_user := "monitor"; Flags.es_password := "secret";
     Flags.es_suppress_missing_error := true |}.

End MoreSamples.

(** * Properties *)

Lemma bind_Ok {A B} (a : A) (k : A → outcome B) : (Ok a ≫= k) = k a.
Proof. reflexivity. Qed.



(** ** The structured-path walk *)

Section getFloatValue.
Import Elasticsearch Walk.

Lemma getFloatValue_last (s : gmap string value) k :
  getFloatValue s [k] =
    match s !! k with Some (Float64 f) => Ok f | _ => Err "Not float64" end.
Proof. reflexivity. Qed.

Lemma getFloatValue_inner (s : gmap string value) k k' rest :
  getFloatValue s (k :: k' :: rest) =
    match s !! k with
    | Some (Object m) => getFloatValue m (k' :: rest)
    | _ => Err "Cannot handle as a hash"
    end.
Proof. reflexivity. Qed.

Lemma getFloatValue_total (s : gmap string value) keys :
  is_ok (getFloatValue s keys) = true ∨ is_err (getFloatValue s keys) = true.
Proof.
  revert s. induction keys as [|k [|k' rest] IH]; intros s.
  - by left.
  - rewrite getFloatValue_last. destruct (s !! k) as [[]|]; auto.
  - rewrite getFloatValue_inner. destruct (s !! k) as [[]|]; auto.
Qed.

Lemma getFloatValue_err_sound (s : gmap string value) keys :
  broken_path s keys ∨ bad_leaf s keys → is_err (getFloatValue s keys) = true.
Proof.
  intros [H|H].
  - induction H as [s k rest Hrest Hk|s k m rest Hk _ IH].
    + destruct rest as [|k' rest]; [done|]. rewrite getFloatValue_inner.
      destruct (s !! k) as [[]|]; try done. by destruct (Hk m).
    + destruct rest as [|k' rest]; [by rewrite <- IH|].
      by rewrite getFloatValue_inner, Hk.
  - induction H as [s k Hk|s k m rest Hrest Hk _ IH].
    + rewrite getFloatValue_last.
      destruct (s !! k) as [[]|]; try done. by destruct (Hk f).
    + destruct rest as [|k' rest]; [done|].
      by rewrite getFloatValue_inner, Hk.
Qed.

Lemma getFloatValue_err_complete (s : gmap string value) keys :
  keys ≠ [] → is_err (getFloatValue s keys) = true →
  broken_path s keys ∨ bad_leaf s keys.
Proof.
  revert s. induction keys as [|k [|k' rest] IH]; intros s Hne; [done| |].
  - rewrite getFloatValue_last. intros H. right. constructor.
    intros f Hf. by rewrite Hf in H.
  - rewrite getFloatValue_inner. destruct (s !! k) as [v|] eqn:Hk.
    + destruct v as [| | | | |m];
        try (intros _; left; apply broken_here; [done|by rewrite Hk]).
      intros H. destruct (IH m) as [Hb|Hb]; [done|done| |].
      * left. by eapply broken_below.
      * right. by eapply bad_leaf_below.
    + intros _. left. apply broken_here; [done|by rewrite Hk].
Qed.

Lemma getFloatValue_ok_leads (s : gmap string value) keys f :
  keys ≠ [] → getFloatValue s keys = Ok f → leads_to s keys f.
Proof.
  revert s. induction keys as [|k [|k' rest] IH]; intros s Hne; [done| |].
  - rewrite getFloatValue_last. destruct (s !! k) as [[]|] eqn:Hk; try done.
    intros [= <-]. by constructor.
  - rewrite getFloatValue_inner. destruct (s !! k) as [[]|] eqn:Hk; try done.
    intros H. eapply leads_below; [done|done|]. by apply IH.
Qed.

(** C8: on a non-empty key path [getFloatValue] returns an error exactly
    when a non-terminal key's value is missing or not a nested mapping, or
    the terminal key's value is missing or not a [float64]; otherwise it
    returns the number the path leads to. *)
Theorem getFloatValue_error_iff (s : gmap string value) (keys : list string) :
  keys ≠ [] →
  (is_err (getFloatValue s keys) = true ↔ broken_path s keys ∨ bad_leaf s keys)
  ∧ (¬ (broken_path s keys ∨ bad_leaf s keys) →
     ∃ f, leads_to s keys f ∧ getFloatValue s keys = Ok f).
Proof.
  intros Hne. split.
  - split; [by apply getFloatValue_err_complete|apply getFloatValue_err_sound].
  - intros Hgood.
    destruct (getFloatValue s keys) as [f| | |] eqn:Hget.
    + exists f. split; [by apply getFloatValue_ok_leads|done].
    + destruct Hgood. apply getFloatValue_err_complete; [done|by rewrite Hget].
    + by destruct (getFloatValue_total s keys) as [H|H]; rewrite Hget in H.
    + by destruct (getFloatValue_total s keys) as [H|H]; rewrite Hget in H.
Qed.

End getFloatValue.

(** ** The Elasticsearch extraction loop *)

Section extract.
Import Elasticsearch Walk EsSpec.

Lemma getFloatValue_leads_ok (s : gmap string value) keys f :
  leads_to s keys f → getFloatValue s keys = Ok f.
Proof.
  induction 1 as [s k f Hk|s k m rest f Hrest Hk _ IH].
  - by rewrite getFloatValue_last, Hk.
  - destruct rest as [|k' rest]; [done|]. by rewrite getFloatValue_inner, Hk.
Qed.


Lemma metricPlace_table_NoDup : NoDup metricPlace_table.*1.
Proof. apply (bool_decide_unpack _). by vm_compute. Qed.

Lemma metricPlace_paths_nonempty k path :
  metricPlace !! k = Some path → path ≠ [].
Proof.
  intros H%elem_of_list_to_map; [|apply metricPlace_table_NoDup].
  assert (HF : Forall (λ kp, kp.2 ≠ []) metricPlace_table).
  { apply (bool_decide_unpack _). by vm_compute. }
  rewrite Forall_forall in HF. exact (HF (k, path) H).
Qed.

Lemma range_elem (range : ranger) {V} (m : gmap string V) k v :
  fair range → (k, v) ∈ range V m ↔ m !! k = Some v.
Proof. intros Hfair. by rewrite (Hfair V m), elem_of_map_to_list. Qed.

Lemma range_NoDup (range : ranger) {V} (m : gmap string V) :
  fair range → NoDup (range V m).*1.
Proof. intros Hfair. rewrite (Hfair V m). apply NoDup_fst_map_to_list. Qed.

Lemma range_singleton (range : ranger) {V} (k : string) (v : V) :
  fair range → range V {[k := v]} = [(k, v)].
Proof.
  intros Hfair. apply Permutation_singleton_r.
  by rewrite (Hfair V), map_to_list_singleton.
Qed.

Lemma extract_total suppress node places stat log :
  ∃ stat' log', extract suppress node places stat log = Ok (stat', log').
Proof.
  revert stat log. induction places as [|[k v] rest IH]; intros stat log; simpl.
  - eauto.
  - destruct (getFloatValue_total node v) as [H|H];
      destruct (getFloatValue node v); try done; simpl; apply IH.
Qed.

Lemma extract_log suppress node places stat log stat' log' :
  extract suppress node places stat log = Ok (stat', log') →
  log' = (log ++ (if suppress then [] else misses node places))%list.
Proof.
  revert stat log. induction places as [|[k v] rest IH]; intros stat log; simpl.
  - intros [= _ <-]. destruct suppress; by rewrite app_nil_r.
  - unfold misses. simpl. fold (misses node rest).
    destruct (getFloatValue node v) as [f|err| |]; simpl; try done.
    + apply IH.
    + intros ->%IH. destruct suppress; simpl; [done|]. by rewrite <- app_assoc.
Qed.

Lemma extract_lookup suppress node places stat log stat' log' k x :
  NoDup places.*1 →
  extract suppress node places stat log = Ok (stat', log') →
  stat' !! k = Some x ↔
    (∃ path, (k, path) ∈ places ∧ getFloatValue node path = Ok x)
    ∨ ((∀ path, (k, path) ∈ places → is_ok (getFloatValue node path) = false)
       ∧ stat !! k = Some x).
Proof.
  revert stat log. induction places as [|[k0 v] rest IH]; intros stat log; simpl.
  - intros _ [= <- _]. split.
    + intros H. right. split; [|done]. by intros path ?%elem_of_nil.
    + by intros [(path & ?%elem_of_nil & _)|[_ ?]].
  - intros [Hk0 Hrest]%NoDup_cons Hex.
    assert (Hfresh : ∀ path, (k0, path) ∉ rest).
    { intros path Hin. apply Hk0. apply list_elem_of_fmap. by exists (k0, path). }
    destruct (getFloatValue node v) as [f|err| |] eqn:Hv; simpl in Hex;
      try done; rewrite (IH _ _ Hrest Hex); clear IH Hex.
    + split.
      * intros [(path & Hin & Hp)|[Hno Hst]].
        -- left. exists path. split; [by right|done].
        -- destruct (decide (k = k0)) as [->|Hne].
           ++ rewrite lookup_insert_eq in Hst. injection Hst as <-.
              left. exists v. split; [by left|done].
           ++ rewrite lookup_insert_ne in Hst by done. right. split; [|done].
              intros path [[=]|Hin]%elem_of_cons; [done|by apply Hno].
      * intros [(path & [[= -> ->]|Hin]%elem_of_cons & Hp)|[Hno Hst]].
        -- right. rewrite Hv in Hp. injection Hp as ->.
           split; [|by rewrite lookup_insert_eq].
           intros path Hin. by destruct (Hfresh path).
        -- left. by exists path.
        -- right. split; [intros path Hin; apply Hno; by right|].
           destruct (decide (k = k0)) as [->|Hne].
           ++ specialize (Hno v (list_elem_of_here _ _)). by rewrite Hv in Hno.
           ++ by rewrite lookup_insert_ne.
    + split.
      * intros [(path & Hin & Hp)|[Hno Hst]].
        -- left. exists path. split; [by right|done].
        -- right. split; [|done].
           intros path [[= -> ->]|Hin]%elem_of_cons; [by rewrite Hv|by apply Hno].
      * intros [(path & [[= -> ->]|Hin]%elem_of_cons & Hp)|[Hno Hst]].
        -- by rewrite Hv in Hp.
        -- left. by exists path.
        -- right. split; [intros path Hin; apply Hno; by right|done].
Qed.

End extract.

(** ** Elasticsearch: [FetchMetrics] *)

Section es_fetch.
Import Elasticsearch Walk EsSpec.

Lemma FetchMetrics_responds (range : ranger) w p resp :
  responds w p resp →
  FetchMetrics range w p =
    (s ← Decode (http.Body resp);
     nodes ← assertObject (s !! "nodes");
     n ← pickNode "" (range _ nodes).*1;
     node ← assertObject (nodes !! n);
     extract (SuppressMissingError p) node (range _ metricPlace) ∅ []).
Proof.
  intros (req & Hreq & Hdo). unfold FetchMetrics.
  by rewrite Hreq, bind_Ok, Hdo, bind_Ok.
Qed.

Lemma assertObject_Object (m : gmap string value) :
  assertObject (Some (Object m)) = Ok m.
Proof. reflexivity. Qed.

Lemma range_metricPlace (range : ranger) :
  fair range → range _ metricPlace ≡ₚ metricPlace_table.
Proof.
  intros Hfair. rewrite (Hfair _ metricPlace).
  apply map_to_list_to_map, metricPlace_table_NoDup.
Qed.

Lemma present_iff (range : ranger) node k v :
  fair range →
  present node k v ↔
    ∃ path, (k, path) ∈ range _ metricPlace ∧ getFloatValue node path = Ok v.
Proof.
  intros Hfair. split; intros (path & Hin & Hget); exists path.
  - split; [by apply range_elem|by apply getFloatValue_leads_ok].
  - apply range_elem in Hin; [|done]. split; [done|].
    apply getFloatValue_ok_leads; [|done]. by eapply metricPlace_paths_nonempty.
Qed.

Lemma FetchMetrics_single_node (range : ranger) w p resp s n node :
  fair range → responds w p resp → Decode (http.Body resp) = Ok s →
  s !! "nodes" = Some (Object {[n := Object node]}) →
  ∃ stat log,
    FetchMetrics range w p = Ok (stat, log)
    ∧ (∀ k v, stat !! k = Some v ↔ present node k v)
    ∧ log ≡ₚ (if SuppressMissingError p then [] else misses node metricPlace_table).
Proof.
  intros Hfair Hresp Hs Hnodes.
  rewrite (FetchMetrics_responds _ _ _ _ Hresp), Hs, bind_Ok, Hnodes.
  rewrite assertObject_Object, bind_Ok.
  rewrite (range_singleton range n (Object node) Hfair).
  change (pickNode "" ([(n, Object node)].*1)) with (Ok (A := string) n).
  rewrite bind_Ok, lookup_singleton_eq, assertObject_Object, bind_Ok.
  destruct (extract_total (SuppressMissingError p) node (range _ metricPlace) ∅ [])
    as (stat & log & Hex).
  exists stat, log. split; [done|]. split.
  - intros k v. rewrite (extract_lookup _ _ _ _ _ _ _ k v (range_NoDup range _ Hfair) Hex).
    rewrite (present_iff range) by done. split; [|by left].
    by intros [?|[_ ?]].
  - rewrite (extract_log _ _ _ _ _ _ _ Hex), app_nil_l.
    destruct (SuppressMissingError p); [done|].
    unfold misses. by rewrite (range_metricPlace range Hfair).
Qed.

(** C1 (as amended): with suppress-missing disabled a missing field does not
    abort the extraction. [FetchMetrics] returns without an error the map
    of exactly the declared metrics the node carries, and logs one
    "Failed to find" line for each declared metric it could not read. *)
Theorem missing_metric_logged_and_skipped (range : ranger) w p resp s n node :
  fair range → SuppressMissingError p = false →
  responds w p resp → Decode (http.Body resp) = Ok s →
  s !! "nodes" = Some (Object {[n := Object node]}) →
  ∃ stat log,
    FetchMetrics range w p = Ok (stat, log)
    ∧ (∀ k v, stat !! k = Some v ↔ present node k v)
    ∧ log ≡ₚ misses node metricPlace_table.
Proof.
  intros Hfair Hsup Hresp Hs Hnodes.
  destruct (FetchMetrics_single_node range w p resp s n node)
    as (stat & log & Hfetch & Hstat & Hlog); try done.
  rewrite Hsup in Hlog. by exists stat, log.
Qed.

(** C10: when the body decodes but has no "nodes" member, or "nodes" is not
    a nested mapping, or the single node entry is not a nested mapping,
    [FetchMetrics] panics in a type assertion instead of returning. *)
Theorem FetchMetrics_panics_on_unexpected_json (range : ranger) w p resp s :
  fair range → responds w p resp → Decode (http.Body resp) = Ok s →
  s !! "nodes" = None
  ∨ (∃ v, s !! "nodes" = Some v ∧ ∀ m, v ≠ Object m)
  ∨ (∃ n v, s !! "nodes" = Some (Object {[n := v]}) ∧ ∀ m, v ≠ Object m) →
  is_panic (FetchMetrics range w p) = true
  ∧ is_err (FetchMetrics range w p) = false
  ∧ is_ok (FetchMetrics range w p) = false.
Proof.
  intros Hfair Hresp Hs Hcases.
  rewrite (FetchMetrics_responds _ _ _ _ Hresp), Hs, bind_Ok.
  destruct Hcases as [Hnone|[(v & Hv & Hnot)|(n & v & Hnodes & Hnot)]].
  - by rewrite Hnone.
  - rewrite Hv. destruct v as [| | | | |m]; try done. by destruct (Hnot m).
  - rewrite Hnodes, assertObject_Object, bind_Ok.
    rewrite (range_singleton range n v Hfair).
    change (pickNode "" ([(n, v)].*1)) with (Ok (A := string) n).
    rewrite bind_Ok, lookup_singleton_eq.
    destruct v as [| | | | |m]; try done. by destruct (Hnot m).
Qed.

End es_fetch.

Section es_runs.
Import Elasticsearch Walk EsSpec Samples.



Lemma missing_metric_logged_and_skipped_witness :
  ∃ stat log,
    FetchMetrics range_sorted (answering 200 "200 OK" es_body) es_plugin = Ok (stat, log)
    ∧ (∀ k v, stat !! k = Some v ↔ present es_node k v)
    ∧ log ≡ₚ misses es_node metricPlace_table.
Proof.
  apply (missing_metric_logged_and_skipped range_sorted
           (answering 200 "200 OK" es_body) es_plugin
           {| http.StatusCode := 200; http.Status := "200 OK"; http.Body := es_body |}
           es_stats "n1" es_node).
  - intros V m. reflexivity.
  - reflexivity.
  - eexists. split; reflexivity.
  - reflexivity.
  - vm_compute. reflexivity.
Defined.

(** C1, as stated, fails: with suppress-missing disabled and a node that
    lacks every declared field but one, [FetchMetrics] returns the one
    metric without an error, and the run ends with status zero and the
    metric on standard output. *)
Lemma missing_field_does_not_abort :
  SuppressMissingError es_plugin = false
  ∧ is_err (getFloatValue es_node ["http"; "total_opened"]) = true
  ∧ fst <$> FetchMetrics range_sorted (answering 200 "200 OK" es_body) es_plugin
    = Ok {[ "heap_used" := 100%float ]}
  ∧ Helper.exit_status <$>
      elasticsearch_Do range_sorted (answering 200 "200 OK" es_body) es_plugin ∅ 1700000000
    = Some 0%Z
  ∧ Helper.stdout <$>
      elasticsearch_Do range_sorted (answering 200 "200 OK" es_body) es_plugin ∅ 1700000000
    = Some [ {| Helper.metric_name := "heap_used";
                Helper.metric_value := 100%float;
                Helper.unix_timestamp := 1700000000 |} ].
Proof.
  split; [reflexivity|].
  split; [vm_compute; reflexivity|].
  split; [vm_compute; reflexivity|].
  split; vm_compute; reflexivity.
Qed.

Lemma FetchMetrics_panics_on_unexpected_json_witness :
  is_panic (FetchMetrics range_sorted (answering 200 "200 OK" es_error_body) es_plugin) = true
  ∧ is_err (FetchMetrics range_sorted (answering 200 "200 OK" es_error_body) es_plugin) = false
  ∧ is_ok (FetchMetrics range_sorted (answering 200 "200 OK" es_error_body) es_plugin) = false.
Proof.
  apply (FetchMetrics_panics_on_unexpected_json range_sorted
           (answering 200 "200 OK" es_error_body) es_plugin
           {| http.StatusCode := 200; http.Status := "200 OK"; http.Body := es_error_body |}
           {[ "status" := Float64 500 ]}).
  - intros V m. reflexivity.
  - eexists. split; reflexivity.
  - reflexivity.
  - left. vm_compute. reflexivity.
Defined.

End es_runs.

(** ** HAProxy: the tabular extractor *)

Section parseStats.
Import HAProxy HaSpec.

Variable ParseFloat : string → option float.

Lemma add_to_lookup name x (stat : gmap string float) k :
  add_to name x stat !! k =
    if decide (name = k) then Some (default 0 (stat !! name) + x)%float
    else stat !! k.
Proof. unfold add_to. apply lookup_insert. Qed.

Lemma index_Some columns i c : columns !! i = Some c → index columns i = Ok c.
Proof. unfold index. by intros ->. Qed.

Lemma index_in_range columns i :
  (i < length columns)%nat → ∃ c, columns !! i = Some c ∧ index columns i = Ok c.
Proof.
  intros [c Hc]%lookup_lt_is_Some_2. exists c. split; [done|by apply index_Some].
Qed.

Lemma parse_column_numeric columns i :
  numeric ParseFloat columns i →
  ∃ x, columns !! i ≫= ParseFloat = Some x
       ∧ parse_column ParseFloat columns i = Ok x.
Proof.
  intros (c & x & Hc & Hx). exists x. unfold parse_column.
  rewrite (index_Some _ _ _ Hc), bind_Ok, Hc, Hx. done.
Qed.

Lemma parse_column_total columns i :
  (i < length columns)%nat →
  is_ok (parse_column ParseFloat columns i) = true
  ∨ is_err (parse_column ParseFloat columns i) = true.
Proof.
  intros (c & _ & Hc)%index_in_range. unfold parse_column.
  rewrite Hc, bind_Ok. destruct (ParseFloat c); auto.
Qed.

Lemma parseRow_short stat columns :
  (length columns < 60)%nat → parseRow ParseFloat stat columns = Err too_short.
Proof.
  intros H. unfold parseRow.
  by destruct (Nat.ltb_spec (length columns) 60); [|lia].
Qed.

Lemma parseRow_wide stat columns :
  (60 ≤ length columns)%nat →
  parseRow ParseFloat stat columns =
    (svname ← index columns 1;
     if negb (String.eqb svname "BACKEND") then Ok stat
     else
       data ← parse_column ParseFloat columns 7;
       let stat := add_to "sessions" data stat in
       data ← parse_column ParseFloat columns 8;
       let stat := add_to "bytes_in" data stat in
       data ← parse_column ParseFloat columns 9;
       let stat := add_to "bytes_out" data stat in
       data ← parse_column ParseFloat columns 13;
       let stat := add_to "connection_errors" data stat in
       Ok stat).
Proof.
  intros H. unfold parseRow.
  by destruct (Nat.ltb_spec (length columns) 60); [lia|].
Qed.

Lemma parseRow_other stat columns :
  (60 ≤ length columns)%nat → backend columns = false →
  parseRow ParseFloat stat columns = Ok stat.
Proof.
  intros Hlen Hb. rewrite parseRow_wide by done.
  destruct (index_in_range columns 1) as (c & Hc & ->); [lia|].
  unfold backend in Hb. rewrite Hc in Hb. by rewrite bind_Ok, Hb.
Qed.

Lemma parseRow_backend stat columns :
  (60 ≤ length columns)%nat → backend columns = true →
  parseRow ParseFloat stat columns =
    (data ← parse_column ParseFloat columns 7;
     let stat := add_to "sessions" data stat in
     data ← parse_column ParseFloat columns 8;
     let stat := add_to "bytes_in" data stat in
     data ← parse_column ParseFloat columns 9;
     let stat := add_to "bytes_out" data stat in
     data ← parse_column ParseFloat columns 13;
     let stat := add_to "connection_errors" data stat in
     Ok stat).
Proof.
  intros Hlen Hb. rewrite parseRow_wide by done.
  destruct (index_in_range columns 1) as (c & Hc & ->); [lia|].
  unfold backend in Hb. rewrite Hc in Hb. by rewrite bind_Ok, Hb.
Qed.

Lemma parseRow_total stat columns :
  is_ok (parseRow ParseFloat stat columns) = true
  ∨ is_err (parseRow ParseFloat stat columns) = true.
Proof.
  destruct (Nat.lt_ge_cases (length columns) 60) as [Hlt|Hge].
  - right. by rewrite parseRow_short.
  - destruct (backend columns) eqn:Hb.
    + rewrite parseRow_backend by done.
      destruct (parse_column_total columns 7) as [H|H]; [lia| |];
        destruct (parse_column ParseFloat columns 7); try done; [|by right].
      rewrite bind_Ok.
      destruct (parse_column_total columns 8) as [H8|H8]; [lia| |];
        destruct (parse_column ParseFloat columns 8); try done; [|by right].
      rewrite bind_Ok.
      destruct (parse_column_total columns 9) as [H9|H9]; [lia| |];
        destruct (parse_column ParseFloat columns 9); try done; [|by right].
      rewrite bind_Ok.
      destruct (parse_column_total columns 13) as [H13|H13]; [lia| |];
        destruct (parse_column ParseFloat columns 13); try done; [|by right].
      by left.
    + left. by rewrite parseRow_other.
Qed.

Lemma parseStats_loop_app stat pre rest stat' :
  parseStats_loop ParseFloat stat pre = Ok stat' →
  parseStats_loop ParseFloat stat (pre ++ rest) = parseStats_loop ParseFloat stat' rest.
Proof.
  revert stat. induction pre as [|columns pre IH]; intros stat.
  - by intros [= ->].
  - cbn [parseStats_loop app].
    destruct (parseRow ParseFloat stat columns) as [stat1| | |]; try done.
    rewrite !bind_Ok. apply IH.
Qed.

Lemma parseStats_loop_short stat pre row post :
  (length row < 60)%nat →
  is_err (parseStats_loop ParseFloat stat (pre ++ row :: post)) = true.
Proof.
  intros Hrow. revert stat. induction pre as [|columns pre IH]; intros stat.
  - cbn [parseStats_loop app]. by rewrite parseRow_short.
  - cbn [parseStats_loop app].
    destruct (parseRow_total stat columns) as [H|H];
      destruct (parseRow ParseFloat stat columns) as [stat1| | |]; try done.
    rewrite bind_Ok. apply IH.
Qed.

(** C6: a record with fewer than 60 columns makes [parseStats] return an
    error and no map, whatever the other records are; when the records
    before it were read without an error, the error is the one about the
    length of the stats csv. *)
Theorem short_row_aborts (pre : csv_records) (row : list string) (post : csv_records) :
  (length row < 60)%nat →
  is_err (parseStats ParseFloat (pre ++ row :: post)) = true
  ∧ (∀ stat, parseStats ParseFloat pre = Ok stat →
       parseStats ParseFloat (pre ++ row :: post) = Err too_short).
Proof.
  intros Hrow. split.
  - by apply parseStats_loop_short.
  - intros stat Hpre. unfold parseStats.
    rewrite (parseStats_loop_app _ _ _ _ Hpre).
    cbn [parseStats_loop]. by rewrite parseRow_short.
Qed.

End parseStats.

Section parseStats_sums.
Import HAProxy HaSpec HaSamples.

Variable ParseFloat : string → option float.

Lemma sums_first (x7 x8 x9 x13 : float) :
  add_to "connection_errors" x13
    (add_to "bytes_out" x9 (add_to "bytes_in" x8 (add_to "sessions" x7 ∅)))
  = sums (0 + x7) (0 + x8) (0 + x9) (0 + x13).
Proof.
  apply map_eq. intros k. unfold sums.
  rewrite !add_to_lookup, !lookup_insert, !lookup_singleton, !lookup_empty.
  repeat case_decide; simplify_eq; done.
Qed.

Lemma sums_next (a b c d x7 x8 x9 x13 : float) :
  add_to "connection_errors" x13
    (add_to "bytes_out" x9
       (add_to "bytes_in" x8 (add_to "sessions" x7 (sums a b c d))))
  = sums (a + x7) (b + x8) (c + x9) (d + x13).
Proof.
  apply map_eq. intros k. unfold sums.
  rewrite !add_to_lookup, !lookup_insert, !lookup_singleton.
  repeat case_decide; simplify_eq; done.
Qed.

Lemma parseRow_backend_values stat columns x7 x8 x9 x13 :
  (60 ≤ length columns)%nat → backend columns = true →
  parse_column ParseFloat columns 7 = Ok x7 →
  parse_column ParseFloat columns 8 = Ok x8 →
  parse_column ParseFloat columns 9 = Ok x9 →
  parse_column ParseFloat columns 13 = Ok x13 →
  parseRow ParseFloat stat columns =
    Ok (add_to "connection_errors" x13
          (add_to "bytes_out" x9 (add_to "bytes_in" x8 (add_to "sessions" x7 stat)))).
Proof.
  intros Hlen Hb H7 H8 H9 H13. rewrite parseRow_backend by done.
  by rewrite H7, bind_Ok, H8, bind_Ok, H9, bind_Ok, H13, bind_Ok.
Qed.

Lemma column_values_backend columns rest i x :
  backend columns = true → columns !! i ≫= ParseFloat = Some x →
  column_values ParseFloat i (columns :: rest) = x :: column_values ParseFloat i rest.
Proof. intros Hb Hx. cbn [column_values]. by rewrite Hb, Hx. Qed.

Lemma column_values_other columns rest i :
  backend columns = false →
  column_values ParseFloat i (columns :: rest) = column_values ParseFloat i rest.
Proof. intros Hb. cbn [column_values]. by rewrite Hb. Qed.

Lemma parseStats_loop_sums a b c d rows :
  well_formed ParseFloat rows →
  parseStats_loop ParseFloat (sums a b c d) rows =
    Ok (sums (foldl PrimFloat.add a (column_values ParseFloat 7 rows))
             (foldl PrimFloat.add b (column_values ParseFloat 8 rows))
             (foldl PrimFloat.add c (column_values ParseFloat 9 rows))
             (foldl PrimFloat.add d (column_values ParseFloat 13 rows))).
Proof.
  intros Hwf. revert a b c d.
  induction Hwf as [|columns rest [Hlen Hnum] _ IH]; intros a b c d; [done|].
  cbn [parseStats_loop]. destruct (backend columns) eqn:Hb.
  - destruct (Hnum eq_refl) as (H7 & H8 & H9 & H13).
    apply parse_column_numeric in H7 as (x7 & Hv7 & Hp7).
    apply parse_column_numeric in H8 as (x8 & Hv8 & Hp8).
    apply parse_column_numeric in H9 as (x9 & Hv9 & Hp9).
    apply parse_column_numeric in H13 as (x13 & Hv13 & Hp13).
    rewrite (parseRow_backend_values _ _ x7 x8 x9 x13) by done.
    rewrite bind_Ok, sums_next, IH.
    by rewrite !(column_values_backend _ _ _ _ Hb) by done.
  - rewrite parseRow_other, bind_Ok, IH by done.
    by rewrite !(column_values_other _ _ _ Hb).
Qed.

Lemma parseStats_loop_empty rows :
  well_formed ParseFloat rows →
  parseStats_loop ParseFloat ∅ rows =
    Ok (if has_backend rows
        then sums (total (column_values ParseFloat 7 rows))
                  (total (column_values ParseFloat 8 rows))
                  (total (column_values ParseFloat 9 rows))
                  (total (column_values ParseFloat 13 rows))
        else ∅).
Proof.
  induction 1 as [|columns rest [Hlen Hnum] Hwf IH]; [done|].
  cbn [parseStats_loop]. unfold has_backend. cbn [existsb].
  destruct (backend columns) eqn:Hb.
  - destruct (Hnum eq_refl) as (H7 & H8 & H9 & H13).
    apply parse_column_numeric in H7 as (x7 & Hv7 & Hp7).
    apply parse_column_numeric in H8 as (x8 & Hv8 & Hp8).
    apply parse_column_numeric in H9 as (x9 & Hv9 & Hp9).
    apply parse_column_numeric in H13 as (x13 & Hv13 & Hp13).
    rewrite (parseRow_backend_values _ _ x7 x8 x9 x13) by done.
    rewrite bind_Ok, sums_first, parseStats_loop_sums by done.
    by rewrite !(column_values_backend _ _ _ _ Hb) by done.
  - rewrite parseRow_other, bind_Ok, IH by done.
    by rewrite !(column_values_other _ _ _ Hb).
Qed.

End parseStats_sums.

Section parseStats_claims.
Import HAProxy HaSpec HaSamples.

Variable ParseFloat : string → option float.

Lemma ha_row_backend pxname stot bin bout econ :
  backend (ha_row pxname "BACKEND" stot bin bout econ) = true.
Proof. reflexivity. Qed.

Lemma ha_row_frontend pxname stot bin bout econ :
  backend (ha_row pxname "FRONTEND" stot bin bout econ) = false.
Proof. reflexivity. Qed.

Lemma ha_row_length pxname svname stot bin bout econ :
  (60 ≤ length (ha_row pxname svname stot bin bout econ))%nat.
Proof. cbn. lia. Qed.

Lemma ha_row_numeric pxname svname stot bin bout econ x7 x8 x9 x13 :
  ParseFloat stot = Some x7 → ParseFloat bin = Some x8 →
  ParseFloat bout = Some x9 → ParseFloat econ = Some x13 →
  let columns := ha_row pxname svname stot bin bout econ in
  numeric ParseFloat columns 7 ∧ numeric ParseFloat columns 8
  ∧ numeric ParseFloat columns 9 ∧ numeric ParseFloat columns 13.
Proof. intros H7 H8 H9 H13. repeat split; eexists _, _; (split; [reflexivity|done]). Qed.

(** C7 (as amended): when every record has at least 60 columns and the
    designated columns of the [BACKEND] records are numeric, [parseStats]
    returns, if there is a [BACKEND] record, exactly the map of sessions,
    bytes_in, bytes_out and connection_errors, each the sum of column 7, 8,
    9 and 13 over the [BACKEND] records and no others, and the empty map if
    there is none. A record with another discriminator leaves every
    accumulator as it is. One [BACKEND] record with 10, 100, 200 and 1
    between [FRONTEND] records gives exactly these four values. *)
Theorem parseStats_sums_backend_rows (rows : csv_records) :
  well_formed ParseFloat rows →
  parseStats ParseFloat rows =
    Ok (if has_backend rows
        then sums (total (column_values ParseFloat 7 rows))
                  (total (column_values ParseFloat 8 rows))
                  (total (column_values ParseFloat 9 rows))
                  (total (column_values ParseFloat 13 rows))
        else ∅)
  ∧ (∀ stat columns, In columns rows → backend columns = false →
       parseRow ParseFloat stat columns = Ok stat)
  ∧ (ParseFloat "10" = Some 10%float → ParseFloat "100" = Some 100%float →
     ParseFloat "200" = Some 200%float → ParseFloat "1" = Some 1%float →
     parseStats ParseFloat ha_rows = Ok (sums 10 100 200 1)).
Proof.
  intros Hwf. split; [by apply parseStats_loop_empty|]. split.
  - intros stat columns Hin Hb. apply parseRow_other; [|done].
    unfold well_formed in Hwf. rewrite Forall_forall in Hwf.
    apply list_elem_of_In in Hin. by destruct (Hwf columns Hin).
  - intros H10 H100 H200 H1. unfold parseStats, ha_rows. cbn [parseStats_loop].
    rewrite parseRow_other, bind_Ok
      by first [apply ha_row_length|apply ha_row_frontend].
    rewrite (parseRow_backend_values ParseFloat _ _ 10 100 200 1);
      [|apply ha_row_length|apply ha_row_backend
       |unfold parse_column; change (index _ 7) with (Ok "10"); by rewrite bind_Ok, H10
       |unfold parse_column; change (index _ 8) with (Ok "100"); by rewrite bind_Ok, H100
       |unfold parse_column; change (index _ 9) with (Ok "200"); by rewrite bind_Ok, H200
       |unfold parse_column; change (index _ 13) with (Ok "1"); by rewrite bind_Ok, H1].
    rewrite bind_Ok, sums_first.
    rewrite parseRow_other, bind_Ok
      by first [apply ha_row_length|apply ha_row_frontend].
    change (0 + 10)%float with 10%float. change (0 + 100)%float with 100%float.
    change (0 + 200)%float with 200%float. by change (0 + 1)%float with 1%float.
Qed.

End parseStats_claims.

Section parseStats_runs.
Import HAProxy HaSpec HaSamples.

Lemma ha_rows_well_formed : well_formed parse_decimal ha_rows.
Proof.
  unfold well_formed, ha_rows. repeat apply Forall_cons_2; [| | |apply Forall_nil_2].
  - split; [apply ha_row_length|by rewrite ha_row_frontend].
  - split; [apply ha_row_length|intros _].
    by apply (ha_row_numeric parse_decimal _ _ _ _ _ _ 10 100 200 1).
  - split; [apply ha_row_length|by rewrite ha_row_frontend].
Qed.

Lemma short_row_aborts_witness :
  is_err (parseStats parse_decimal
            (ha_frontend_only ++ ["app"; "BACKEND"; "10"] :: ha_rows)) = true
  ∧ (∀ stat, parseStats parse_decimal ha_frontend_only = Ok stat →
       parseStats parse_decimal
         (ha_frontend_only ++ ["app"; "BACKEND"; "10"] :: ha_rows) = Err too_short).
Proof.
  apply (short_row_aborts parse_decimal ha_frontend_only ["app"; "BACKEND"; "10"] ha_rows).
  simpl. lia.
Defined.

Lemma parseStats_sums_backend_rows_witness :
  parseStats parse_decimal ha_rows =
    Ok (sums (total (column_values parse_decimal 7 ha_rows))
             (total (column_values parse_decimal 8 ha_rows))
             (total (column_values parse_decimal 9 ha_rows))
             (total (column_values parse_decimal 13 ha_rows)))
  ∧ parseStats parse_decimal ha_rows = Ok (sums 10 100 200 1).
Proof.
  destruct (parseStats_sums_backend_rows parse_decimal ha_rows ha_rows_well_formed)
    as (Hsum & _ & Hscenario).
  split; [exact Hsum|]. apply Hscenario; reflexivity.
Defined.

(** C7, as stated, fails: for a csv without a [BACKEND] record, all of whose
    records are wide enough and numeric, [parseStats] returns the empty
    map, which has none of the four names. *)
Lemma frontend_only_gives_empty_map :
  well_formed parse_decimal ha_frontend_only
  ∧ parseStats parse_decimal ha_frontend_only = Ok ∅
  ∧ (∅ : gmap string float) !! "sessions" = None.
Proof.
  split; [|split; [vm_compute; reflexivity|apply lookup_empty]].
  apply Forall_cons_2; [|apply Forall_nil_2].
  split; [apply ha_row_length|by rewrite ha_row_frontend].
Qed.

End parseStats_runs.

(** ** The fetch: status, timeout, decoding *)

Section fetch.
Import NetSpec.


Lemma Do_late {B} (c : http.Client) (b : http.behaviour B) :
  (0 < http.Timeout c)%Z → late (http.Timeout c) b →
  ∃ e, http.Do c b = Err e.
Proof.
  intros Hpos [->|(d & r & -> & Hd)]; unfold http.Do.
  - destruct (Z.ltb_spec 0 (http.Timeout c)); [by eexists|lia].
  - destruct (Z.ltb_spec 0 (http.Timeout c)); [|lia].
    destruct (Z.ltb_spec (http.Timeout c) d); [by eexists|lia].
Qed.

Lemma haproxy_tcp_asked ParseFloat w p b :
  HAProxy.Socket p = "" → haproxy_asked w p b →
  HAProxy.FetchMetrics ParseFloat w p =
    (resp ← http.Do HAProxy.client b;
     if negb (http.StatusCode resp =? 200)%Z
     then Err ("Request failed. Status: " +:+ http.Status resp +:+ ", URI: "
               +:+ HAProxy.URI p +:+ ";csv;norefresh")
     else HAProxy.parseStats ParseFloat (http.Body resp)).
Proof.
  intros Hsock (req & Hreq & <-).
  unfold HAProxy.FetchMetrics, HAProxy.fetchMetricsFromTCP.
  by rewrite Hsock, Hreq, bind_Ok.
Qed.

Lemma phpfpm_getStatus_asked w p b :
  phpfpm_asked w p b →
  PhpFpm.getStatus w p =
    (res ← http.Do (PhpFpm.client p) b;
     body ← PhpFpm.ReadAll (http.Body res);
     Ok (PhpFpm.Unmarshal body)).
Proof.
  intros (req & Hreq & <-). unfold PhpFpm.getStatus. by rewrite Hreq, bind_Ok.
Qed.

Lemma phpfpm_getStatus_responds w p res :
  phpfpm_responds w p res →
  PhpFpm.getStatus w p = Ok (PhpFpm.Unmarshal (http.Body res)).
Proof.
  intros (b & Hasked & Hdo & Hread).
  by rewrite (phpfpm_getStatus_asked _ _ _ Hasked), Hdo, bind_Ok, Hread, bind_Ok.
Qed.


Lemma wrap_int64_small z :
  (- 2 ^ 63 ≤ z < 2 ^ 63)%Z → PhpFpm.wrap_int64 z = z.
Proof.
  intros Hz. unfold PhpFpm.wrap_int64.
  change (2 ^ 63)%Z with 9223372036854775808%Z in *.
  change (2 ^ 64)%Z with 18446744073709551616%Z.
  rewrite Z.mod_small; lia.
Qed.

Lemma phpfpm_timeout_seconds p :
  (PhpFpm.Timeout p ≤ 9223372036)%N →
  PhpFpm.timeout p = (Z.of_N (PhpFpm.Timeout p) * http.second)%Z.
Proof.
  intros Hle. unfold PhpFpm.timeout, http.second.
  rewrite (wrap_int64_small (Z.of_N _)).
  - apply wrap_int64_small. change (2 ^ 63)%Z with 9223372036854775808%Z. lia.
  - change (2 ^ 63)%Z with 9223372036854775808%Z. lia.
Qed.

End fetch.

Section fetch_claims.
Import NetSpec NetSamples Samples.

(** C3 (as amended): in the HTTP fetch of the HAProxy plugin every response
    whose status is not 200 makes [FetchMetrics] fail with an error that
    carries the status and the request URI; nothing goes to standard
    output and the exit status is not zero. The Elasticsearch and PHP-FPM
    plugins do not look at the status: two responses with the same body
    give the same result. *)
Theorem haproxy_rejects_other_status ParseFloat (w : HAProxy.World)
    (p : HAProxy.HAProxyPlugin) (resp : http.Response (list (list string)))
    (previous : gmap string (Helper.observation float)) (now : Z) :
  HAProxy.Socket p = "" → haproxy_responds w p resp →
  http.StatusCode resp ≠ 200%Z →
  HAProxy.FetchMetrics ParseFloat w p =
    Err ("Request failed. Status: " +:+ http.Status resp +:+ ", URI: "
         +:+ HAProxy.URI p +:+ ";csv;norefresh")
  ∧ (∃ pr, haproxy_Do ParseFloat w p previous now = Some pr
           ∧ Helper.stdout pr = [] ∧ Helper.exit_status pr ≠ 0%Z)
  ∧ (∀ range w1 w2 q r1 r2,
       EsSpec.responds w1 q r1 → EsSpec.responds w2 q r2 →
       http.Body r1 = http.Body r2 →
       Elasticsearch.FetchMetrics range w1 q = Elasticsearch.FetchMetrics range w2 q)
  ∧ (∀ w1 w2 q r1 r2,
       phpfpm_responds w1 q r1 → phpfpm_responds w2 q r2 →
       http.Body r1 = http.Body r2 →
       PhpFpm.FetchMetrics w1 q = PhpFpm.FetchMetrics w2 q).
Proof.
  intros Hsock (b & Hasked & Hdo) Hstatus.
  assert (Hfetch : HAProxy.FetchMetrics ParseFloat w p =
            Err ("Request failed. Status: " +:+ http.Status resp +:+ ", URI: "
                 +:+ HAProxy.URI p +:+ ";csv;norefresh")).
  { rewrite (haproxy_tcp_asked _ _ _ _ Hsock Hasked), Hdo, bind_Ok.
    by destruct (Z.eqb_spec (http.StatusCode resp) 200). }
  split; [done|]. split; [|split].
  - unfold haproxy_Do. rewrite Hfetch. by eexists.
  - intros range w1 w2 q r1 r2 H1 H2 Hbody.
    by rewrite (FetchMetrics_responds _ _ _ _ H1),
               (FetchMetrics_responds _ _ _ _ H2), Hbody.
  - intros w1 w2 q r1 r2 H1 H2 Hbody.
    unfold PhpFpm.FetchMetrics.
    by rewrite (phpfpm_getStatus_responds _ _ _ H1),
               (phpfpm_getStatus_responds _ _ _ H2), Hbody.
Qed.

Lemma haproxy_rejects_other_status_witness :
  HAProxy.FetchMetrics HaSamples.parse_decimal
    (ha_world (answering 500 "500 Internal Server Error" HaSamples.ha_rows)) ha_plugin =
    Err "Request failed. Status: 500 Internal Server Error, URI: http://localhost:80/;csv;norefresh"
  ∧ ∃ pr, haproxy_Do HaSamples.parse_decimal
            (ha_world (answering 500 "500 Internal Server Error" HaSamples.ha_rows))
            ha_plugin ∅ 1700000000 = Some pr
          ∧ Helper.stdout pr = [] ∧ Helper.exit_status pr ≠ 0%Z.
Proof.
  destruct (haproxy_rejects_other_status HaSamples.parse_decimal
              (ha_world (answering 500 "500 Internal Server Error" HaSamples.ha_rows))
              ha_plugin
              {| http.StatusCode := 500; http.Status := "500 Internal Server Error";
                 http.Body := HaSamples.ha_rows |}
              ∅ 1700000000) as (Hfetch & Hrun & _).
  - reflexivity.
  - eexists. split; [eexists; split; reflexivity|reflexivity].
  - discriminate.
  - split; [exact Hfetch|exact Hrun].
Defined.

(** C3, as stated, fails: the Elasticsearch plugin, answered with status
    500 and a body of node statistics, returns the metrics without an
    error; they are written out and the exit status is zero. *)
Lemma elasticsearch_ignores_status :
  fst <$> Elasticsearch.FetchMetrics range_sorted
            (answering 500 "500 Internal Server Error" es_body) es_plugin
    = Ok {[ "heap_used" := 100%float ]}
  ∧ Helper.exit_status <$>
      elasticsearch_Do range_sorted
        (answering 500 "500 Internal Server Error" es_body) es_plugin ∅ 1700000000
    = Some 0%Z
  ∧ Helper.stdout <$>
      elasticsearch_Do range_sorted
        (answering 500 "500 Internal Server Error" es_body) es_plugin ∅ 1700000000
    = Some [ {| Helper.metric_name := "heap_used";
                Helper.metric_value := 100%float;
                Helper.unix_timestamp := 1700000000 |} ].
Proof.
  split; [vm_compute; reflexivity|].
  split; vm_compute; reflexivity.
Qed.

(** C4 (as amended): the client of the HTTP fetch of the HAProxy plugin has
    a timeout of five seconds, and the client of the PHP-FPM plugin, over
    plain HTTP, one of the configured number of seconds when that is
    between 1 and 9223372036 (which [time.Duration] holds without wrapping
    around). When the target does not respond within that time, [client.Do]
    returns an error, and [FetchMetrics] returns that error: as it is for
    HAProxy, after the words [Failed to fetch PHP-FPM metrics: ] for
    PHP-FPM. The Elasticsearch client has no timeout: against a target that
    never answers, [FetchMetrics] does not return. *)
Theorem fetch_timeouts :
  (∀ ParseFloat w p b,
     HAProxy.Socket p = "" → haproxy_asked w p b →
     http.Timeout HAProxy.client = (5 * http.second)%Z
     ∧ (late (5 * http.second) b →
        ∃ e, http.Do HAProxy.client b = Err e
             ∧ HAProxy.FetchMetrics ParseFloat w p = Err e))
  ∧ (∀ w p b,
       PhpFpm.FastCGI p = false →
       (0 < PhpFpm.Timeout p ≤ 9223372036)%N → phpfpm_asked w p b →
       PhpFpm.client p =
         {| http.Transport := http.DefaultTransport;
            http.Timeout := Z.of_N (PhpFpm.Timeout p) * http.second |}
       ∧ (late (Z.of_N (PhpFpm.Timeout p) * http.second) b →
          ∃ e, http.Do (PhpFpm.client p) b = Err e
               ∧ PhpFpm.FetchMetrics w p =
                   Err ("Failed to fetch PHP-FPM metrics: " +:+ e)))
  ∧ (∀ range w p,
       elasticsearch_asked w p http.Silent →
       http.Timeout (Elasticsearch.client p) = 0%Z
       ∧ Elasticsearch.FetchMetrics range w p = Blocked).
Proof.
  split; [|split].
  - intros ParseFloat w p b Hsock Hasked. split; [done|]. intros Hlate.
    destruct (Do_late HAProxy.client b) as [e He]; [done|done|].
    exists e. split; [done|].
    by rewrite (haproxy_tcp_asked _ _ _ _ Hsock Hasked), He.
  - intros w p b Hfcgi [Hpos Hle] Hasked.
    assert (Htimeout : http.Timeout (PhpFpm.client p)
                       = (Z.of_N (PhpFpm.Timeout p) * http.second)%Z).
    { unfold PhpFpm.client. cbn [http.Timeout]. by apply phpfpm_timeout_seconds. }
    split.
    { unfold PhpFpm.client in *. cbn [http.Timeout] in Htimeout.
      by rewrite Hfcgi, Htimeout. }
    intros Hlate.
    destruct (Do_late (PhpFpm.client p) b) as [e He].
    + rewrite Htimeout. unfold http.second. lia.
    + by rewrite Htimeout.
    + exists e. split; [done|]. unfold PhpFpm.FetchMetrics.
      by rewrite (phpfpm_getStatus_asked _ _ _ Hasked), He.
  - intros range w p (req & Hreq & Hsilent). split; [done|].
    unfold Elasticsearch.FetchMetrics. by rewrite Hreq, bind_Ok, Hsilent.
Qed.

Lemma fetch_timeouts_witness :
  (∃ e, http.Do HAProxy.client (http.Silent (B := HAProxy.csv_records)) = Err e
        ∧ HAProxy.FetchMetrics HaSamples.parse_decimal (ha_world silent) ha_plugin = Err e)
  ∧ http.Timeout (PhpFpm.client php_plugin) = (5 * http.second)%Z
  ∧ (∃ e, http.Do (PhpFpm.client php_plugin) (http.Silent (B := PhpFpm.payload)) = Err e
          ∧ PhpFpm.FetchMetrics silent php_plugin =
              Err ("Failed to fetch PHP-FPM metrics: " +:+ e))
  ∧ Elasticsearch.FetchMetrics range_sorted silent es_plugin = Blocked.
Proof.
  destruct fetch_timeouts as (Hha & Hphp & Hes).
  split; [|split; [|split]].
  - apply (Hha HaSamples.parse_decimal (ha_world silent) ha_plugin http.Silent).
    + reflexivity.
    + eexists. split; reflexivity.
    + by left.
  - destruct (Hphp silent php_plugin http.Silent) as [Hclient _].
    + reflexivity.
    + vm_compute. split; [reflexivity|discriminate].
    + eexists. split; reflexivity.
    + by rewrite Hclient.
  - apply (Hphp silent php_plugin http.Silent).
    + reflexivity.
    + vm_compute. split; [reflexivity|discriminate].
    + eexists. split; reflexivity.
    + by left.
  - apply (Hes range_sorted silent es_plugin). eexists. split; reflexivity.
Defined.

(** C4, as stated, fails: the Elasticsearch client is configured without a
    timeout, and against a target that never answers the fetch does not
    fail with a timeout error: it never returns, and the process never
    exits. *)
Lemma elasticsearch_waits_forever :
  http.Timeout (Elasticsearch.client es_plugin) = 0%Z
  ∧ Elasticsearch.FetchMetrics range_sorted silent es_plugin = Blocked
  ∧ elasticsearch_Do range_sorted silent es_plugin ∅ 1700000000 = None.
Proof. split; [reflexivity|]. split; vm_compute; reflexivity. Qed.

(** C5: a body that is not valid JSON leaves the status pointer of
    [getStatus] nil without an error, and [FetchMetrics] of the PHP-FPM
    plugin panics on it instead of returning an error. *)
Theorem phpfpm_invalid_json_panics (w : http.World PhpFpm.payload)
    (p : PhpFpm.PhpFpmPlugin) (res : http.Response PhpFpm.payload) (e : string) :
  phpfpm_responds w p res → http.Body res = PhpFpm.NotJSON e →
  PhpFpm.getStatus w p = Ok None
  ∧ PhpFpm.FetchMetrics w p =
      Panic "runtime error: invalid memory address or nil pointer dereference".
Proof.
  intros Hres Hbody.
  assert (Hstatus : PhpFpm.getStatus w p = Ok None).
  { by rewrite (phpfpm_getStatus_responds _ _ _ Hres), Hbody. }
  split; [done|]. unfold PhpFpm.FetchMetrics. by rewrite Hstatus.
Qed.

Lemma phpfpm_invalid_json_panics_witness :
  PhpFpm.getStatus
    (answering 200 "200 OK" (PhpFpm.NotJSON "invalid character '<' looking for beginning of value"))
    php_plugin = Ok None
  ∧ PhpFpm.FetchMetrics
      (answering 200 "200 OK" (PhpFpm.NotJSON "invalid character '<' looking for beginning of value"))
      php_plugin =
      Panic "runtime error: invalid memory address or nil pointer dereference".
Proof.
  apply (phpfpm_invalid_json_panics _ php_plugin
           {| http.StatusCode := 200; http.Status := "200 OK";
              http.Body := PhpFpm.NotJSON "invalid character '<' looking for beginning of value" |}
           "invalid character '<' looking for beginning of value").
  - eexists. split; [eexists; split; reflexivity|split; reflexivity].
  - reflexivity.
Defined.

End fetch_claims.

(** ** Counters and gauges *)

Section rate.
Import Helper.

Lemma rate_ge (t1 : Z) (v1 v2 : float) (now : Z) :
  float_ge v2 v1 →
  rate {| seen_at := t1; seen_value := v1 |} v2 now
  = ((v2 - v1) / seconds (now - t1))%float.
Proof. unfold rate, float_ge. cbn [seen_value seen_at]. by intros [->| ->]. Qed.

Lemma rate_lt (t1 : Z) (v1 v2 : float) (now : Z) :
  float_lt v2 v1 → rate {| seen_at := t1; seen_value := v1 |} v2 now = 0%float.
Proof. unfold rate, float_lt. cbn [seen_value]. by intros ->. Qed.

(** C2: for a metric declared as a counter, with a previous record
    [(v1, t1)], a sample [v2] and [t1 < now], the reported value is
    [(v2 - v1) / (now - t1)] when [v2 >= v1] and 0 when [v2 < v1]; without
    a previous record the metric is not reported at all. A gauge is
    reported unchanged. The output consists of the reports of the declared
    metrics. Every metric of the HAProxy plugin is declared as a counter
    and every metric of the PHP-FPM plugin as a gauge. *)
Theorem counter_rate_or_omitted (stat : gmap string float)
    (previous : gmap string (observation float)) (now : Z)
    (m : mp.Metrics) (v2 : float) :
  stat !! mp.Name m = Some v2 →
  (mp.Diff m = true →
     (∀ t1 v1,
        previous !! mp.Name m = Some {| seen_at := t1; seen_value := v1 |} →
        (t1 < now)%Z →
        (float_ge v2 v1 →
         report rate previous now stat m =
           Some {| metric_name := mp.Name m;
                   metric_value := ((v2 - v1) / seconds (now - t1))%float;
                   unix_timestamp := now |})
        ∧ (float_lt v2 v1 →
           report rate previous now stat m =
             Some {| metric_name := mp.Name m; metric_value := 0%float;
                     unix_timestamp := now |}))
     ∧ (previous !! mp.Name m = None → report rate previous now stat m = None))
  ∧ (mp.Diff m = false →
     report rate previous now stat m =
       Some {| metric_name := mp.Name m; metric_value := v2; unix_timestamp := now |})
  ∧ (∀ graphdef l,
       l ∈ emit rate previous now graphdef stat ↔
       ∃ m', m' ∈ mp.metrics_of (map_to_list graphdef)
             ∧ report rate previous now stat m' = Some l)
  ∧ Forall (λ m', mp.Diff m' = true) (mp.metrics_of HAProxy.graphdef_table)
  ∧ (∀ p, Forall (λ m', mp.Diff m' = false) (mp.metrics_of (PhpFpm.graphdef_table p))).
Proof.
  intros Hstat. split; [|split; [|split; [|split]]].
  - intros Hdiff. split.
    + intros t1 v1 Hprev Hlt. unfold report.
      rewrite Hstat, Hdiff. cbn [mbind option_bind]. rewrite Hprev.
      cbn [mbind option_bind]. split.
      * intros Hge. by rewrite rate_ge.
      * intros Hlow. by rewrite rate_lt.
    + intros Hprev. unfold report. rewrite Hstat, Hdiff.
      cbn [mbind option_bind]. by rewrite Hprev.
  - intros Hdiff. unfold report. by rewrite Hstat, Hdiff.
  - intros graphdef l. unfold emit. rewrite list_elem_of_omap. naive_solver.
  - unfold mp.metrics_of. cbn. by repeat constructor.
  - intros p. unfold mp.metrics_of. cbn. by repeat constructor.
Qed.

End rate.

(** ** The sample set against the schema *)

Section schema.
Import SchemaSpec.

Lemma bind_Ok_inv {A B} (x : outcome A) (k : A → outcome B) b :
  x ≫= k = Ok b → ∃ a, x = Ok a ∧ k a = Ok b.
Proof. destruct x as [a| | |]; try done. intros H. by exists a. Qed.

Lemma declared_table (table : list (string * mp.Graphs)) :
  NoDup table.*1 →
  mp.declared (list_to_map table) = list_to_set (mp.Name <$> mp.metrics_of table).
Proof.
  intros Hnd. unfold mp.declared, mp.metrics_of.
  apply list_to_set_perm_L, fmap_Permutation, bind_Permutation, fmap_Permutation.
  by apply map_to_list_to_map.
Qed.

Lemma es_graph_keys_NoDup p : NoDup (Elasticsearch.graphdef_table p).*1.
Proof.
  change ((Elasticsearch.graphdef_table p).*1)
    with (String.append (Elasticsearch.Prefix p) <$>
            [".http"; ".indices"; ".indices.docs"; ".indices.memory_size";
             ".indices.evictions"; ".jvm.heap"; ".thread_pool.threads";
             ".transport.count"; ".process"; ".script"]).
  apply (NoDup_fmap_2 _). apply (bool_decide_unpack _). by vm_compute.
Qed.

Lemma es_declared p :
  mp.declared (Elasticsearch.GraphDefinition p) = dom Elasticsearch.metricPlace.
Proof.
  unfold Elasticsearch.GraphDefinition, Elasticsearch.metricPlace.
  rewrite declared_table by apply es_graph_keys_NoDup.
  by rewrite dom_list_to_map_L.
Qed.

Lemma ha_declared :
  mp.declared HAProxy.graphdef
  = list_to_set ["sessions"; "bytes_in"; "bytes_out"; "connection_errors"].
Proof.
  unfold HAProxy.graphdef. rewrite declared_table; [done|].
  apply (bool_decide_unpack _). by vm_compute.
Qed.

Lemma php_declared p :
  mp.declared (PhpFpm.GraphDefinition p) = list_to_set phpfpm_tags.*1.
Proof.
  unfold PhpFpm.GraphDefinition. rewrite declared_table; [done|].
  apply (bool_decide_unpack _). by vm_compute.
Qed.

Lemma sums_dom a b c d :
  dom (HaSpec.sums a b c d)
  = list_to_set ["sessions"; "bytes_in"; "bytes_out"; "connection_errors"].
Proof.
  unfold HaSpec.sums. rewrite !dom_insert_L, dom_singleton_L.
  cbn [list_to_set foldr]. by rewrite (right_id_L ∅ (∪)).
Qed.

Lemma es_FetchMetrics_ok_inv range w p stat log :
  Elasticsearch.FetchMetrics range w p = Ok (stat, log) →
  ∃ resp s nodes n node,
    EsSpec.responds w p resp
    ∧ Elasticsearch.Decode (http.Body resp) = Ok s
    ∧ s !! "nodes" = Some (Elasticsearch.Object nodes)
    ∧ nodes !! n = Some (Elasticsearch.Object node)
    ∧ Elasticsearch.extract (Elasticsearch.SuppressMissingError p) node
        (range _ Elasticsearch.metricPlace) ∅ [] = Ok (stat, log).
Proof.
  unfold Elasticsearch.FetchMetrics.
  intros (req & Hreq & H)%bind_Ok_inv.
  apply bind_Ok_inv in H as (resp & Hdo & H).
  apply bind_Ok_inv in H as (s & Hs & H).
  apply bind_Ok_inv in H as (nodes & Hnodes & H).
  apply bind_Ok_inv in H as (n & Hn & H).
  apply bind_Ok_inv in H as (node & Hnode & H).
  exists resp, s, nodes, n, node. split; [by exists req|]. split; [done|].
  unfold Elasticsearch.assertObject in Hnodes, Hnode.
  destruct (s !! "nodes") as [[]|]; try done.
  destruct (nodes !! n) as [[]|]; try done.
  by simplify_eq.
Qed.

Lemma parse_column_ok_numeric ParseFloat columns i x :
  HAProxy.parse_column ParseFloat columns i = Ok x →
  HaSpec.numeric ParseFloat columns i.
Proof.
  unfold HAProxy.parse_column, HAProxy.index.
  destruct (columns !! i) as [c|] eqn:Hc; [|done].
  rewrite bind_Ok. destruct (ParseFloat c) as [y|] eqn:Hy; [|done].
  intros _. by exists c, y.
Qed.

Lemma parseRow_ok_well_formed ParseFloat stat columns stat' :
  HAProxy.parseRow ParseFloat stat columns = Ok stat' →
  (60 ≤ length columns)%nat
  ∧ (HaSpec.backend columns = true →
     HaSpec.numeric ParseFloat columns 7 ∧ HaSpec.numeric ParseFloat columns 8
     ∧ HaSpec.numeric ParseFloat columns 9 ∧ HaSpec.numeric ParseFloat columns 13).
Proof.
  intros Hrow.
  destruct (Nat.lt_ge_cases (length columns) 60) as [Hlt|Hge].
  { by rewrite parseRow_short in Hrow. }
  split; [done|]. intros Hb. rewrite parseRow_backend in Hrow by done.
  apply bind_Ok_inv in Hrow as (x7 & H7 & Hrow).
  apply bind_Ok_inv in Hrow as (x8 & H8 & Hrow).
  apply bind_Ok_inv in Hrow as (x9 & H9 & Hrow).
  apply bind_Ok_inv in Hrow as (x13 & H13 & Hrow).
  repeat split; by eapply parse_column_ok_numeric.
Qed.

Lemma parseStats_loop_ok_well_formed ParseFloat stat rows stat' :
  HAProxy.parseStats_loop ParseFloat stat rows = Ok stat' →
  HaSpec.well_formed ParseFloat rows.
Proof.
  revert stat. induction rows as [|columns rest IH]; intros stat.
  - intros _. apply Forall_nil_2.
  - cbn [HAProxy.parseStats_loop]. intros (stat1 & Hrow & Hrest)%bind_Ok_inv.
    apply Forall_cons_2; [by eapply parseRow_ok_well_formed|by eapply IH].
Qed.

Lemma parseStats_ok_dom ParseFloat rows stat :
  HAProxy.parseStats ParseFloat rows = Ok stat →
  dom stat = if HaSpec.has_backend rows then mp.declared HAProxy.graphdef else ∅.
Proof.
  intros Hok. pose proof (parseStats_loop_ok_well_formed _ _ _ _ Hok) as Hwf.
  unfold HAProxy.parseStats in Hok.
  rewrite (parseStats_loop_empty ParseFloat rows Hwf) in Hok. injection Hok as <-.
  destruct (HaSpec.has_backend rows); [|apply dom_empty_L].
  by rewrite sums_dom, ha_declared.
Qed.

Lemma ha_FetchMetrics_ok_inv ParseFloat w p stat :
  HAProxy.FetchMetrics ParseFloat w p = Ok stat →
  ∃ rows, delivers w p rows ∧ HAProxy.parseStats ParseFloat rows = Ok stat.
Proof.
  unfold HAProxy.FetchMetrics.
  destruct (String.eqb_spec (HAProxy.Socket p) "") as [Hsock|Hsock].
  - unfold HAProxy.fetchMetricsFromTCP.
    intros (req & Hreq & H)%bind_Ok_inv.
    apply bind_Ok_inv in H as (resp & Hdo & H).
    destruct (Z.eqb_spec (http.StatusCode resp) 200) as [Hst|Hst]; [|done].
    exists (http.Body resp). split; [|done]. left. split; [done|].
    exists resp. split; [|done]. eexists. split; [by exists req|done].
  - unfold HAProxy.fetchMetricsFromSocket.
    destruct (HAProxy.unix w (HAProxy.Socket p)) as [err|rows|] eqn:Hunix; try done.
    intros Hok. exists rows. split; [by right|done].
Qed.

Lemma php_FetchMetrics_ok_dom w p stat :
  PhpFpm.FetchMetrics w p = Ok stat → dom stat = list_to_set phpfpm_tags.*1.
Proof.
  unfold PhpFpm.FetchMetrics.
  destruct (PhpFpm.getStatus w p) as [status| | |]; try done.
  rewrite bind_Ok. destruct status as [st|]; [|done].
  unfold PhpFpm.deref. rewrite bind_Ok. intros [= <-].
  rewrite !dom_insert_L, dom_empty_L. cbn [phpfpm_tags fmap list_fmap fst].
  by cbn [list_to_set foldr].
Qed.

End schema.

Section schema_claims.
Import SchemaSpec NetSamples Samples.

Lemma extract_present (range : ranger) suppress node stat log :
  fair range →
  Elasticsearch.extract suppress node (range _ Elasticsearch.metricPlace) ∅ []
    = Ok (stat, log) →
  ∀ k v, stat !! k = Some v ↔ EsSpec.present node k v.
Proof.
  intros Hfair Hex k v.
  rewrite (extract_lookup _ _ _ _ _ _ _ k v (range_NoDup range _ Hfair) Hex).
  rewrite (present_iff range) by done. split; [|by left].
  by intros [?|[_ ?]].
Qed.

Lemma present_declared p node k v :
  EsSpec.present node k v → k ∈ mp.declared (Elasticsearch.GraphDefinition p).
Proof.
  intros (path & Hpath & _). rewrite es_declared. apply elem_of_dom. by exists path.
Qed.

(** C9 (as amended): after a successful fetch the sample set has no
    duplicate names and all its names are declared in the plugin's graph
    definition. For Elasticsearch the names are exactly the declared
    metrics the node object carries as numbers; for HAProxy they are all
    the declared metrics when the csv has a [BACKEND] record and none
    otherwise; PHP-FPM reports every declared metric, carried by the body
    or not. *)
Theorem sample_names_declared :
  (∀ (range : ranger) w p stat log,
     fair range → Elasticsearch.FetchMetrics range w p = Ok (stat, log) →
     NoDup (map_to_list stat).*1
     ∧ dom stat ⊆ mp.declared (Elasticsearch.GraphDefinition p)
     ∧ ∃ resp s nodes n node,
         EsSpec.responds w p resp
         ∧ Elasticsearch.Decode (http.Body resp) = Ok s
         ∧ s !! "nodes" = Some (Elasticsearch.Object nodes)
         ∧ nodes !! n = Some (Elasticsearch.Object node)
         ∧ ∀ k, k ∈ dom stat ↔
                k ∈ mp.declared (Elasticsearch.GraphDefinition p)
                ∧ ∃ v, EsSpec.present node k v)
  ∧ (∀ ParseFloat w p stat,
       HAProxy.FetchMetrics ParseFloat w p = Ok stat →
       NoDup (map_to_list stat).*1
       ∧ dom stat ⊆ mp.declared (HAProxy.GraphDefinition p)
       ∧ ∃ rows,
           delivers w p rows
           ∧ dom stat = if HaSpec.has_backend rows
                        then mp.declared (HAProxy.GraphDefinition p) else ∅)
  ∧ (∀ w p stat,
       PhpFpm.FetchMetrics w p = Ok stat →
       NoDup (map_to_list stat).*1
       ∧ dom stat = mp.declared (PhpFpm.GraphDefinition p)).
Proof.
  split; [|split].
  - intros range w p stat log Hfair Hfetch.
    apply es_FetchMetrics_ok_inv in Hfetch
      as (resp & s & nodes & n & node & Hresp & Hs & Hnodes & Hnode & Hex).
    pose proof (extract_present range _ _ _ _ Hfair Hex) as Hstat.
    assert (Hdom : ∀ k, k ∈ dom stat ↔
              k ∈ mp.declared (Elasticsearch.GraphDefinition p)
              ∧ ∃ v, EsSpec.present node k v).
    { intros k. rewrite elem_of_dom. unfold is_Some. split.
      - intros [v Hv]. apply Hstat in Hv. split; [by eapply present_declared|by exists v].
      - intros [_ [v Hv]]. exists v. by apply Hstat. }
    split; [apply NoDup_fst_map_to_list|]. split.
    + intros k Hk. by apply Hdom in Hk as [? _].
    + by exists resp, s, nodes, n, node.
  - intros ParseFloat w p stat Hfetch.
    apply ha_FetchMetrics_ok_inv in Hfetch as (rows & Hrows & Hparse).
    pose proof (parseStats_ok_dom _ _ _ Hparse) as Hdom.
    split; [apply NoDup_fst_map_to_list|]. split.
    + rewrite Hdom. unfold HAProxy.GraphDefinition.
      destruct (HaSpec.has_backend rows); [reflexivity|apply empty_subseteq].
    + by exists rows.
  - intros w p stat Hfetch. split; [apply NoDup_fst_map_to_list|].
    by rewrite php_declared, (php_FetchMetrics_ok_dom _ _ _ Hfetch).
Qed.

Lemma phpfpm_FetchMetrics_decoded w p res st :
  NetSpec.phpfpm_responds w p res → PhpFpm.Unmarshal (http.Body res) = Some st →
  PhpFpm.FetchMetrics w p =
    Ok (list_to_map [
      ("total_processes", PhpFpm.TotalProcesses st);
      ("active_processes", PhpFpm.ActiveProcesses st);
      ("idle_processes", PhpFpm.IdleProcesses st);
      ("max_active_processes", PhpFpm.MaxActiveProcesses st);
      ("max_children_reached", PhpFpm.MaxChildrenReached st);
      ("listen_queue", PhpFpm.ListenQueue st);
      ("listen_queue_len", PhpFpm.ListenQueueLen st);
      ("max_listen_queue", PhpFpm.MaxListenQueue st);
      ("slow_requests", PhpFpm.SlowRequests st)]).
Proof.
  intros Hres Hst. unfold PhpFpm.FetchMetrics.
  by rewrite (phpfpm_getStatus_responds _ _ _ Hres), Hst.
Qed.

Lemma sample_names_declared_witness :
  dom ({[ "heap_used" := 100%float ]} : gmap string float)
    ⊆ mp.declared (Elasticsearch.GraphDefinition es_quiet_plugin)
  ∧ (∃ rows,
       delivers (ha_world (answering 200 "200 OK" HaSamples.ha_rows)) ha_plugin rows
       ∧ dom (HaSpec.sums 10 100 200 1) =
           if HaSpec.has_backend rows
           then mp.declared (HAProxy.GraphDefinition ha_plugin) else ∅)
  ∧ dom (list_to_map ((λ k, (k, 0%N)) <$> phpfpm_tags.*1) : gmap string N)
    = mp.declared (PhpFpm.GraphDefinition php_plugin).
Proof.
  destruct sample_names_declared as (Hes & Hha & Hphp).
  split; [|split].
  - apply (Hes range_sorted (answering 200 "200 OK" es_body) es_quiet_plugin
             {[ "heap_used" := 100%float ]} []).
    + intros V m. reflexivity.
    + vm_compute. reflexivity.
  - apply (Hha HaSamples.parse_decimal
             (ha_world (answering 200 "200 OK" HaSamples.ha_rows)) ha_plugin
             (HaSpec.sums 10 100 200 1)).
    vm_compute. reflexivity.
  - apply (Hphp (answering 200 "200 OK" (PhpFpm.JSONObject ∅)) php_plugin).
    apply (phpfpm_FetchMetrics_decoded _ _
             {| http.StatusCode := 200; http.Status := "200 OK";
                http.Body := PhpFpm.JSONObject ∅ |} PhpFpm.zero_status).
    + eexists. split; [eexists; split; reflexivity|split; reflexivity].
    + vm_compute. reflexivity.
Defined.

(** C9, as stated, fails: answered with the empty object, the PHP-FPM plugin
    reports its metrics, as zero, although the body carries none of them. *)
Lemma phpfpm_reports_absent_metrics :
  (λ stat : gmap string N, stat !! "total_processes")
    <$> PhpFpm.FetchMetrics (answering 200 "200 OK" (PhpFpm.JSONObject ∅)) php_plugin
  = Ok (Some 0%N)
  ∧ (λ stat : gmap string N, size stat)
      <$> PhpFpm.FetchMetrics (answering 200 "200 OK" (PhpFpm.JSONObject ∅)) php_plugin
    = Ok 9
  ∧ ∀ k, ¬ phpfpm_carried ∅ k.
Proof.
  split; [vm_compute; reflexivity|]. split; [vm_compute; reflexivity|].
  intros k (tag & _ & Hsome). rewrite lookup_empty in Hsome. by destruct Hsome.
Qed.

End schema_claims.

Section witnesses.
Import Helper HelperSamples Samples.

Lemma counter_rate_or_omitted_witness :
  report rate sample_previous 1700000000 sample_stat sessions_metric =
    Some {| metric_name := "sessions"; metric_value := 2%float;
            unix_timestamp := 1700000000 |}
  ∧ report rate ∅ 1700000000 sample_stat sessions_metric = None
  ∧ report rate sample_previous 1700000000 sample_stat heap_metric =
      Some {| metric_name := "heap_used"; metric_value := 100%float;
              unix_timestamp := 1700000000 |}.
Proof.
  assert (Hstat : sample_stat !! mp.Name sessions_metric = Some 130%float)
    by (vm_compute; reflexivity).
  assert (Hheap : sample_stat !! mp.Name heap_metric = Some 100%float)
    by (vm_compute; reflexivity).
  split; [|split].
  - destruct (counter_rate_or_omitted sample_stat sample_previous 1700000000
                sessions_metric 130 Hstat) as (Hcounter & _).
    destruct (Hcounter eq_refl) as (Hrate & _).
    destruct (Hrate 1699999940%Z 10%float) as (Hge & _).
    + vm_compute. reflexivity.
    + lia.
    + apply Hge. left. reflexivity.
  - destruct (counter_rate_or_omitted sample_stat ∅ 1700000000
                sessions_metric 130 Hstat) as (Hcounter & _).
    destruct (Hcounter eq_refl) as (_ & Hnone).
    apply Hnone. apply lookup_empty.
  - destruct (counter_rate_or_omitted sample_stat sample_previous 1700000000
                heap_metric 100 Hheap) as (_ & Hgauge & _).
    apply Hgauge. reflexivity.
Defined.

Lemma getFloatValue_error_iff_witness :
  (is_err (Elasticsearch.getFloatValue es_node ["jvm"; "mem"; "heap_used_in_bytes"]) = true
   ↔ Walk.broken_path es_node ["jvm"; "mem"; "heap_used_in_bytes"]
     ∨ Walk.bad_leaf es_node ["jvm"; "mem"; "heap_used_in_bytes"])
  ∧ (¬ (Walk.broken_path es_node ["jvm"; "mem"; "heap_used_in_bytes"]
        ∨ Walk.bad_leaf es_node ["jvm"; "mem"; "heap_used_in_bytes"]) →
     ∃ f, Walk.leads_to es_node ["jvm"; "mem"; "heap_used_in_bytes"] f
          ∧ Elasticsearch.getFloatValue es_node ["jvm"; "mem"; "heap_used_in_bytes"] = Ok f).
Proof.
  apply (getFloatValue_error_iff es_node ["jvm"; "mem"; "heap_used_in_bytes"]).
  discriminate.
Defined.

End witnesses.

(** * Further properties of the plugins *)

(** ** The path walk, continued *)

Section walk_more.
Import Elasticsearch Walk Descent.

Lemma getFloatValue_cons_Object (s m : gmap string value) k rest :
  rest ≠ [] → s !! k = Some (Object m) →
  getFloatValue s (k :: rest) = getFloatValue m rest.
Proof.
  intros Hrest Hk. destruct rest as [|k' rest]; [done|].
  by rewrite getFloatValue_inner, Hk.
Qed.

Lemma getFloatValue_cons_broken (s : gmap string value) k rest :
  rest ≠ [] → (∀ m, s !! k ≠ Some (Object m)) →
  getFloatValue s (k :: rest) = Err "Cannot handle as a hash".
Proof.
  intros Hrest Hk. destruct rest as [|k' rest]; [done|].
  rewrite getFloatValue_inner. destruct (s !! k) as [[]|]; try done.
  by destruct (Hk m).
Qed.

(** X1: walking a path in two legs. When the first leg leads through nested
    mappings to the mapping [m], the walk of the whole path is the walk of
    the second leg from [m]; when the first leg does not, the walk fails
    with "Cannot handle as a hash". *)
Theorem getFloatValue_two_legs (s : gmap string value) (pre post : list string) :
  post ≠ [] →
  getFloatValue s (pre ++ post) =
    match descend s pre with
    | Some m => getFloatValue m post
    | None => Err "Cannot handle as a hash"
    end.
Proof.
  intros Hpost. revert s. induction pre as [|k pre IH]; intros s; [done|].
  assert (Hrest : (pre ++ post)%list ≠ []) by (by destruct pre, post).
  cbn [app descend]. destruct (s !! k) as [v|] eqn:Hk.
  - destruct v as [| | | | |m];
      try (by apply getFloatValue_cons_broken; [|rewrite Hk]).
    rewrite (getFloatValue_cons_Object s m) by done. apply IH.
  - by apply getFloatValue_cons_broken; [|rewrite Hk].
Qed.

Lemma getFloatValue_two_legs_witness :
  getFloatValue Samples.es_node (["jvm"; "mem"] ++ ["heap_used_in_bytes"]) =
    match descend Samples.es_node ["jvm"; "mem"] with
    | Some m => getFloatValue m ["heap_used_in_bytes"]
    | None => Err "Cannot handle as a hash"
    end.
Proof.
  apply (getFloatValue_two_legs Samples.es_node ["jvm"; "mem"] ["heap_used_in_bytes"]).
  discriminate.
Defined.

Lemma broken_path_message (s : gmap string value) keys :
  broken_path s keys → getFloatValue s keys = Err "Cannot handle as a hash".
Proof.
  induction 1 as [s k rest Hrest Hk|s k m rest Hk Hb IH].
  - by apply getFloatValue_cons_broken.
  - rewrite (getFloatValue_cons_Object s m); [done| |done]. by destruct Hb.
Qed.

Lemma bad_leaf_message (s : gmap string value) keys :
  bad_leaf s keys → getFloatValue s keys = Err "Not float64".
Proof.
  induction 1 as [s k Hk|s k m rest Hrest Hk _ IH].
  - rewrite getFloatValue_last. destruct (s !! k) as [[]|]; try done.
    by destruct (Hk f).
  - by rewrite (getFloatValue_cons_Object s m).
Qed.

(** X2: the error of [getFloatValue] tells the two failures apart. On a
    non-empty path it is "Cannot handle as a hash" exactly when a
    non-terminal key's value is missing or not a mapping, and "Not float64"
    exactly when the walk reaches the terminal key and its value is missing
    or not a number; no other error is returned, and the two cases exclude
    each other. *)
Theorem getFloatValue_error_message (s : gmap string value) (keys : list string) :
  keys ≠ [] →
  (getFloatValue s keys = Err "Cannot handle as a hash" ↔ broken_path s keys)
  ∧ (getFloatValue s keys = Err "Not float64" ↔ bad_leaf s keys)
  ∧ (∀ e, getFloatValue s keys = Err e →
          e = "Cannot handle as a hash" ∨ e = "Not float64")
  ∧ ¬ (broken_path s keys ∧ bad_leaf s keys).
Proof.
  intros Hne.
  assert (Hcases : ∀ e, getFloatValue s keys = Err e →
            (broken_path s keys ∧ e = "Cannot handle as a hash")
            ∨ (bad_leaf s keys ∧ e = "Not float64")).
  { intros e He.
    destruct (getFloatValue_err_complete s keys Hne) as [Hb|Hb];
      [by rewrite He|left|right]; split; try done.
    - rewrite (broken_path_message _ _ Hb) in He. by injection He.
    - rewrite (bad_leaf_message _ _ Hb) in He. by injection He. }
  split; [|split; [|split]].
  - split; [|apply broken_path_message].
    intros He. by destruct (Hcases _ He) as [[? _]|[_ ?]].
  - split; [|apply bad_leaf_message].
    intros He. by destruct (Hcases _ He) as [[_ ?]|[? _]].
  - intros e He. destruct (Hcases _ He) as [[_ ->]|[_ ->]]; auto.
  - intros [Hb Hl]. pose proof (broken_path_message _ _ Hb) as H1.
    pose proof (bad_leaf_message _ _ Hl) as H2. rewrite H1 in H2. discriminate.
Qed.

Lemma getFloatValue_error_message_witness :
  (getFloatValue Samples.es_node ["jvm"; "mem"] = Err "Cannot handle as a hash"
   ↔ broken_path Samples.es_node ["jvm"; "mem"])
  ∧ (getFloatValue Samples.es_node ["jvm"; "mem"] = Err "Not float64"
     ↔ bad_leaf Samples.es_node ["jvm"; "mem"])
  ∧ (∀ e, getFloatValue Samples.es_node ["jvm"; "mem"] = Err e →
          e = "Cannot handle as a hash" ∨ e = "Not float64")
  ∧ ¬ (broken_path Samples.es_node ["jvm"; "mem"]
       ∧ bad_leaf Samples.es_node ["jvm"; "mem"]).
Proof.
  apply (getFloatValue_error_message Samples.es_node ["jvm"; "mem"]). discriminate.
Defined.

End walk_more.

(** ** Elasticsearch: the choice of the node *)

Section nodes.
Import Elasticsearch Walk EsSpec.

Lemma pickNode_named n k rest :
  n ≠ "" → pickNode n (k :: rest) = Err "Multiple node found".
Proof. intros Hn. cbn [pickNode]. by destruct (String.eqb_spec n ""). Qed.

Lemma pickNode_unnamed k rest : pickNode "" (k :: rest) = pickNode k rest.
Proof. reflexivity. Qed.

(** X3: the loop that picks the node. From the keys in the order they are
    visited it returns the last one when every key before it is the empty
    string, the empty string when there is no key, and the error "Multiple
    node found" as soon as a key other than the last is not empty. *)
Theorem pickNode_last_key (ks : list string) :
  (ks = [] → pickNode "" ks = Ok "")
  ∧ (∀ pre n, ks = (pre ++ [n])%list → Forall (λ k, k = "") pre →
       pickNode "" ks = Ok n)
  ∧ (∀ pre k post, ks = (pre ++ k :: post)%list → post ≠ [] → k ≠ "" →
       pickNode "" ks = Err "Multiple node found").
Proof.
  split; [by intros ->|]. split.
  - intros pre n -> Hpre. induction Hpre as [|k pre -> _ IH]; [done|].
    cbn [app]. by rewrite pickNode_unnamed.
  - intros pre k post -> Hpost Hk. induction pre as [|a pre IH].
    + cbn [app]. rewrite pickNode_unnamed.
      destruct post as [|k' post]; [done|]. by apply pickNode_named.
    + cbn [app]. rewrite pickNode_unnamed.
      destruct (decide (a = "")) as [->|Ha]; [done|].
      destruct pre; by apply pickNode_named.
Qed.

Lemma range_keys_length (range : ranger) {V} (m : gmap string V) :
  fair range → length (range V m).*1 = size m.
Proof.
  intros Hfair. rewrite length_fmap, (Hfair V m). apply length_map_to_list.
Qed.

Lemma range_keys_dom (range : ranger) {V} (m : gmap string V) k :
  fair range → k ∈ (range V m).*1 → is_Some (m !! k).
Proof.
  intros Hfair ([k' v] & -> & Hin)%list_elem_of_fmap.
  apply (range_elem range) in Hin; [|done]. by exists v.
Qed.

(** X4: more than one node. When the "nodes" object has at least two
    entries and none of them has the empty name, [FetchMetrics] returns the
    error "Multiple node found", in whatever order the entries are
    visited. *)
Theorem FetchMetrics_multiple_nodes (range : ranger) w p resp s
    (nodes : gmap string value) :
  fair range → responds w p resp → Decode (http.Body resp) = Ok s →
  s !! "nodes" = Some (Object nodes) →
  (2 ≤ size nodes)%nat → nodes !! "" = None →
  FetchMetrics range w p = Err "Multiple node found".
Proof.
  intros Hfair Hresp Hs Hnodes Hsize Hempty.
  rewrite (FetchMetrics_responds _ _ _ _ Hresp), Hs, bind_Ok, Hnodes.
  rewrite assertObject_Object, bind_Ok.
  pose proof (range_keys_length range nodes Hfair) as Hlen.
  pose proof (range_keys_dom range nodes) as Hdom.
  destruct ((range value nodes).*1) as [|k1 [|k2 ks]]; cbn [length] in Hlen; try lia.
  rewrite pickNode_unnamed, pickNode_named; [done|].
  intros ->. destruct (Hdom "" Hfair) as [v Hv]; [by left|]. by rewrite Hempty in Hv.
Qed.

(** X5: no node. When the "nodes" object is empty the loop leaves the node
    name empty, the lookup of that name finds nothing, and [FetchMetrics]
    panics in the type assertion, on the nil it has read. *)
Theorem FetchMetrics_no_node_panics (range : ranger) w p resp s :
  fair range → responds w p resp → Decode (http.Body resp) = Ok s →
  s !! "nodes" = Some (Object ∅) →
  FetchMetrics range w p =
    Panic "interface conversion: interface {} is nil, not map[string]interface {}".
Proof.
  intros Hfair Hresp Hs Hnodes.
  rewrite (FetchMetrics_responds _ _ _ _ Hresp), Hs, bind_Ok, Hnodes.
  rewrite assertObject_Object, bind_Ok.
  assert (Hnil : range value ∅ = []).
  { apply Permutation_nil_r. by rewrite (Hfair value ∅), map_to_list_empty. }
  rewrite Hnil. cbn [fmap list_fmap pickNode]. rewrite bind_Ok, lookup_empty.
  reflexivity.
Qed.

End nodes.

(** ** Elasticsearch: what the result depends on *)

Section es_more.
Import Elasticsearch Walk EsSpec EsMore.

(** X6: the order in which Go visits [metricPlace] does not matter. For a
    payload with one node object, any two visiting orders give the same
    metric map, and error logs with the same lines. *)
Theorem FetchMetrics_order_independent (range1 range2 : ranger) w p resp s n node :
  fair range1 → fair range2 →
  responds w p resp → Decode (http.Body resp) = Ok s →
  s !! "nodes" = Some (Object {[n := Object node]}) →
  ∃ stat log1 log2,
    FetchMetrics range1 w p = Ok (stat, log1)
    ∧ FetchMetrics range2 w p = Ok (stat, log2)
    ∧ log1 ≡ₚ log2.
Proof.
  intros Hfair1 Hfair2 Hresp Hs Hnodes.
  destruct (FetchMetrics_single_node range1 w p resp s n node)
    as (stat1 & log1 & Hfetch1 & Hstat1 & Hlog1); try done.
  destruct (FetchMetrics_single_node range2 w p resp s n node)
    as (stat2 & log2 & Hfetch2 & Hstat2 & Hlog2); try done.
  assert (stat2 = stat1) as ->.
  { apply map_eq. intros k. apply option_eq. intros v.
    by rewrite Hstat1, Hstat2. }
  exists stat1, log1, log2. split; [done|]. split; [done|].
  by rewrite Hlog1, Hlog2.
Qed.

Lemma extract_fst suppress suppress' node places stat log log' :
  fst <$> extract suppress node places stat log
  = fst <$> extract suppress' node places stat log'.
Proof.
  revert stat log log'. induction places as [|[k v] rest IH]; intros stat log log'.
  - reflexivity.
  - cbn [extract].
    destruct (getFloatValue node v) as [f|err| |]; rewrite ?bind_Ok;
      first [apply IH|done].
Qed.

Lemma extract_suppressed node places stat log stat' log' :
  extract true node places stat log = Ok (stat', log') → log' = log.
Proof. intros ->%extract_log. apply app_nil_r. Qed.

Lemma fmap_bind_ext {A B C} (f : B → C) (x : outcome A) (k k' : A → outcome B) :
  (∀ a, f <$> k a = f <$> k' a) → f <$> (x ≫= k) = f <$> (x ≫= k').
Proof. intros Hk. destruct x as [a| | |]; try done. apply Hk. Qed.

(** X7: the flag [SuppressMissingError] decides about the error log and
    about nothing else. The metric map, or the error or panic that takes
    its place, is the same with the flag set and unset; with the flag set
    the log of a successful fetch is empty. *)
Theorem suppress_only_silences (range : ranger) w p :
  fst <$> FetchMetrics range w (set_suppress true p)
  = fst <$> FetchMetrics range w (set_suppress false p)
  ∧ ∀ stat log, FetchMetrics range w (set_suppress true p) = Ok (stat, log) →
                log = [].
Proof.
  split.
  - unfold FetchMetrics.
    change (URI (set_suppress true p)) with (URI (set_suppress false p)).
    apply fmap_bind_ext. intros req.
    change (request (set_suppress true p) req) with (request (set_suppress false p) req).
    change (client (set_suppress true p)) with (client (set_suppress false p)).
    apply fmap_bind_ext. intros resp. apply fmap_bind_ext. intros s.
    apply fmap_bind_ext. intros nodes. apply fmap_bind_ext. intros n.
    apply fmap_bind_ext. intros node. apply extract_fst.
  - intros stat log Hfetch.
    apply es_FetchMetrics_ok_inv in Hfetch as (_ & _ & _ & _ & node & _ & _ & _ & _ & Hex).
    by apply extract_suppressed in Hex.
Qed.

Lemma extract_count node places stat log stat' log' :
  NoDup places.*1 → (∀ k, k ∈ places.*1 → stat !! k = None) →
  extract false node places stat log = Ok (stat', log') →
  (length log' + size stat' = length log + size stat + length places)%nat.
Proof.
  revert stat log. induction places as [|[k v] rest IH]; intros stat log.
  - intros _ _ [= <- <-]. cbn [length]. lia.
  - intros [Hk Hrest]%NoDup_cons Hfresh. cbn [extract].
    assert (Hnew : stat !! k = None) by (apply Hfresh; cbn; left).
    destruct (getFloatValue node v) as [f|err| |] eqn:Hv; try done.
    + rewrite bind_Ok. intros Hex. apply IH in Hex; [|done|].
      * rewrite Hex, map_size_insert_None by done. cbn [length]. lia.
      * intros k' Hk'. rewrite lookup_insert_ne by (by intros ->).
        apply Hfresh. cbn. by right.
    + cbn [negb]. intros Hex. apply IH in Hex; [|done|].
      * rewrite Hex, length_app. cbn [length]. lia.
      * intros k' Hk'. apply Hfresh. cbn. by right.
Qed.

Lemma metricPlace_size : size metricPlace = 49%nat.
Proof. by vm_compute. Qed.

(** X8: every declared metric is accounted for. For a payload with one node
    object and the flag [SuppressMissingError] unset, [FetchMetrics]
    succeeds, and each of the 49 places of [metricPlace] ends either as a
    key of the metric map or as a line of the error log: their numbers add
    up to 49. *)
Theorem every_place_reported_or_logged (range : ranger) w p resp s n node :
  fair range → SuppressMissingError p = false →
  responds w p resp → Decode (http.Body resp) = Ok s →
  s !! "nodes" = Some (Object {[n := Object node]}) →
  ∃ stat log,
    FetchMetrics range w p = Ok (stat, log)
    ∧ (size stat + length log = 49)%nat.
Proof.
  intros Hfair Hsup Hresp Hs Hnodes.
  destruct (FetchMetrics_single_node range w p resp s n node)
    as (stat & log & Hfetch & _); try done.
  exists stat, log. split; [done|].
  apply es_FetchMetrics_ok_inv in Hfetch
    as (resp' & s' & nodes' & n' & node' & _ & _ & _ & _ & Hex).
  rewrite Hsup in Hex.
  apply extract_count in Hex.
  - rewrite map_size_empty in Hex. cbn [length] in Hex.
    rewrite <- (length_fmap fst), (range_keys_length range _ Hfair), metricPlace_size in Hex.
    lia.
  - by apply range_NoDup.
  - intros k _. apply lookup_empty.
Qed.

Lemma request_the_request p :
  request p {| http.Method := "GET"; http.URL := stats_url p;
               http.UserAgent := None; http.BasicAuth := None |}
  = the_request p.
Proof.
  unfold request, the_request, http.SetUserAgent, http.SetBasicAuth.
  cbn [http.Method http.URL http.UserAgent http.BasicAuth].
  destruct (String.eqb_spec (User p) "") as [Hu|Hu],
    (String.eqb_spec (Password p) "") as [Hp|Hp];
    cbn [negb andb]; case_decide as Hd; try done; by destruct Hd.
Qed.

(** X9: one request. [FetchMetrics] asks the target once: a GET of
    [URI/_nodes/_local/stats] with the plugin's User-Agent, and with basic
    authentication exactly when both the user and the password are set. Two
    worlds that treat this address and this request alike give the same
    result. *)
Theorem FetchMetrics_one_request (range : ranger) (w w' : http.World payload) p :
  http.url_Parse w (stats_url p) = http.url_Parse w' (stats_url p) →
  http.remote w (client p) (the_request p) = http.remote w' (client p) (the_request p) →
  FetchMetrics range w p = FetchMetrics range w' p.
Proof.
  intros Hurl Hremote. unfold FetchMetrics, http.NewRequest.
  fold (stats_url p). rewrite <- Hurl.
  destruct (http.url_Parse w (stats_url p)); [done|].
  by rewrite !bind_Ok, request_the_request, Hremote.
Qed.

Lemma pickNode_error n ks e :
  pickNode n ks = Err e → e = "Multiple node found".
Proof.
  revert n. induction ks as [|k ks IH]; intros n; [done|].
  cbn [pickNode]. destruct (negb (String.eqb n "")); [by intros [= <-]|apply IH].
Qed.

Lemma bind_Err_inv {A B} (x : outcome A) (k : A → outcome B) e :
  x ≫= k = Err e → x = Err e ∨ ∃ a, x = Ok a ∧ k a = Err e.
Proof.
  destruct x as [a|e'| |]; intros H; try done.
  - right. by exists a.
  - left. change (@Err B e' = Err e) in H. by injection H as ->.
Qed.

(** X10: the errors [FetchMetrics] returns. An error is the one of
    [http.NewRequest], the one of [client.Do], the one of the JSON decoder,
    or "Multiple node found"; a field that cannot be read never makes
    [FetchMetrics] return an error. The first three are handed on
    unchanged. *)
Theorem FetchMetrics_errors (range : ranger) (w : http.World payload) p (e : string) :
  (FetchMetrics range w p = Err e →
     http.url_Parse w (stats_url p) = Some e
     ∨ http.Do (client p) (http.remote w (client p) (the_request p)) = Err e
     ∨ (∃ resp, http.Do (client p) (http.remote w (client p) (the_request p)) = Ok resp
                ∧ Decode (http.Body resp) = Err e)
     ∨ e = "Multiple node found")
  ∧ (http.url_Parse w (stats_url p) = Some e → FetchMetrics range w p = Err e)
  ∧ (http.url_Parse w (stats_url p) = None →
     http.Do (client p) (http.remote w (client p) (the_request p)) = Err e →
     FetchMetrics range w p = Err e)
  ∧ (http.url_Parse w (stats_url p) = None →
     ∀ resp, http.Do (client p) (http.remote w (client p) (the_request p)) = Ok resp →
             Decode (http.Body resp) = Err e → FetchMetrics range w p = Err e).
Proof.
  unfold FetchMetrics, http.NewRequest. fold (stats_url p).
  destruct (http.url_Parse w (stats_url p)) as [e0|] eqn:Hurl.
  { split; [intros [= ->]; by left|]. split; [by intros [= ->]|]. by split. }
  rewrite bind_Ok, request_the_request.
  split; [|split; [done|split]].
  - intros H. right.
    apply bind_Err_inv in H as [H|(resp & Hdo & H)]; [by left|]. right.
    apply bind_Err_inv in H as [H|(s & Hs & H)]; [left; by exists resp|]. right.
    apply bind_Err_inv in H as [H|(nodes & Hnodes & H)].
    { unfold assertObject in H. by destruct (s !! "nodes") as [[]|]. }
    apply bind_Err_inv in H as [H|(n & Hn & H)]; [by eapply pickNode_error|].
    apply bind_Err_inv in H as [H|(node & Hnode & H)].
    { unfold assertObject in H. by destruct (nodes !! n) as [[]|]. }
    destruct (extract_total (SuppressMissingError p) node
                (range _ metricPlace) ∅ []) as (stat & log & Hex).
    by rewrite Hex in H.
  - intros _ Hdo. by rewrite Hdo.
  - intros _ resp Hdo Hdec. by rewrite Hdo, bind_Ok, Hdec.
Qed.

End es_more.

(** ** HAProxy: the tabular extractor, continued *)

Section parseStats_more.
Import HAProxy HaSpec HaMore.

Variable ParseFloat : string → option float.

Lemma parseStats_loop_total stat rows :
  is_ok (parseStats_loop ParseFloat stat rows) = true
  ∨ is_err (parseStats_loop ParseFloat stat rows) = true.
Proof.
  revert stat. induction rows as [|columns rest IH]; intros stat; [by left|].
  cbn [parseStats_loop].
  destruct (parseRow_total ParseFloat stat columns) as [H|H];
    destruct (parseRow ParseFloat stat columns) as [stat1| | |]; try done.
  - rewrite bind_Ok. apply IH.
  - by right.
Qed.

(** X11: when [parseStats] succeeds. It returns a map exactly when every
    record has at least 60 columns and columns 7, 8, 9 and 13 of every
    [BACKEND] record are numeric; otherwise it returns an error. It never
    panics: no column is read beyond the end of a record. *)
Theorem parseStats_succeeds_iff (rows : csv_records) :
  (is_ok (parseStats ParseFloat rows) = true ↔ well_formed ParseFloat rows)
  ∧ (is_err (parseStats ParseFloat rows) = true ↔ ¬ well_formed ParseFloat rows)
  ∧ is_panic (parseStats ParseFloat rows) = false.
Proof.
  assert (Hok : is_ok (parseStats ParseFloat rows) = true ↔ well_formed ParseFloat rows).
  { split.
    - unfold parseStats.
      destruct (parseStats_loop ParseFloat ∅ rows) as [stat| | |] eqn:Hloop; try done.
      intros _. by eapply parseStats_loop_ok_well_formed.
    - intros Hwf. unfold parseStats. by rewrite (parseStats_loop_empty ParseFloat rows Hwf). }
  split; [done|]. rewrite <- Hok. unfold parseStats.
  destruct (parseStats_loop_total ∅ rows) as [H|H];
    destruct (parseStats_loop ParseFloat ∅ rows); try done.
Qed.

Lemma parseStats_loop_backend_only stat rows :
  Forall (λ columns, (60 ≤ length columns)%nat) rows →
  parseStats_loop ParseFloat stat rows
  = parseStats_loop ParseFloat stat (List.filter backend rows).
Proof.
  intros Hwide. revert stat. induction Hwide as [|columns rest Hlen _ IH]; intros stat.
  - reflexivity.
  - cbn [List.filter]. destruct (backend columns) eqn:Hb.
    + cbn [parseStats_loop].
      destruct (parseRow ParseFloat stat columns) as [stat1| | |]; try done.
      rewrite !bind_Ok. apply IH.
    + cbn [parseStats_loop]. rewrite parseRow_other, bind_Ok by done. apply IH.
Qed.

(** X12: only the [BACKEND] records count. When every record has at least
    60 columns, [parseStats] gives the same result, map or error, as on the
    [BACKEND] records alone: the other records, numeric or not, change
    nothing. *)
Theorem parseStats_backend_only (rows : csv_records) :
  Forall (λ columns, (60 ≤ length columns)%nat) rows →
  parseStats ParseFloat rows = parseStats ParseFloat (List.filter backend rows).
Proof. apply parseStats_loop_backend_only. Qed.

Lemma parse_column_cases columns i :
  (i < length columns)%nat →
  (∃ x, parse_column ParseFloat columns i = Ok x)
  ∨ (parse_column ParseFloat columns i = Err "cannot get values"
     ∧ ∃ c, columns !! i = Some c ∧ ParseFloat c = None).
Proof.
  intros (c & Hc & Hidx)%index_in_range. unfold parse_column.
  rewrite Hidx, bind_Ok. destruct (ParseFloat c) as [x|] eqn:Hx.
  - left. by exists x.
  - right. split; [done|]. by exists c.
Qed.

Lemma parse_column_not_numeric columns i c :
  columns !! i = Some c → ParseFloat c = None →
  parse_column ParseFloat columns i = Err "cannot get values".
Proof.
  intros Hc Hx. unfold parse_column. by rewrite (index_Some _ _ _ Hc), bind_Ok, Hx.
Qed.

Lemma parseRow_not_numeric stat columns :
  (60 ≤ length columns)%nat → backend columns = true →
  not_numeric ParseFloat columns →
  parseRow ParseFloat stat columns = Err "cannot get values".
Proof.
  intros Hlen Hb (i & c & Hi & Hc & Hx).
  pose proof (parse_column_not_numeric _ _ _ Hc Hx) as Hbad.
  rewrite parseRow_backend by done.
  destruct (parse_column_cases columns 7) as [[x7 H7]|[H7 _]]; [lia| |by rewrite H7].
  rewrite H7, bind_Ok.
  destruct (parse_column_cases columns 8) as [[x8 H8]|[H8 _]]; [lia| |by rewrite H8].
  rewrite H8, bind_Ok.
  destruct (parse_column_cases columns 9) as [[x9 H9]|[H9 _]]; [lia| |by rewrite H9].
  rewrite H9, bind_Ok.
  destruct (parse_column_cases columns 13) as [[x13 H13]|[H13 _]]; [lia| |by rewrite H13].
  exfalso. rewrite !elem_of_cons, elem_of_nil in Hi.
  destruct Hi as [->|[->|[->|[->|[]]]]]; congruence.
Qed.

(** X13: a [BACKEND] record with a column that is not a number. When the
    records before it were read without an error, a [BACKEND] record of at
    least 60 columns whose column 7, 8, 9 or 13 is not numeric makes
    [parseStats] return the error "cannot get values" and no map, whatever
    follows. *)
Theorem bad_number_aborts (pre : csv_records) (row : list string)
    (post : csv_records) (stat : gmap string float) :
  parseStats ParseFloat pre = Ok stat →
  (60 ≤ length row)%nat → backend row = true → not_numeric ParseFloat row →
  parseStats ParseFloat (pre ++ row :: post) = Err "cannot get values".
Proof.
  intros Hpre Hlen Hb Hbad. unfold parseStats.
  rewrite (parseStats_loop_app _ _ _ _ _ Hpre). cbn [parseStats_loop].
  by rewrite parseRow_not_numeric.
Qed.

(** X14: the two transports read the same records alike. When the web
    endpoint answers with status 200 and the Unix socket streams the same
    records, the fetch over HTTP and the fetch over the socket both return
    what [parseStats] makes of these records. *)
Theorem transports_agree (w1 w2 : World) (p1 p2 : HAProxyPlugin)
    (resp : http.Response csv_records) (rows : csv_records) :
  Socket p1 = "" → NetSpec.haproxy_responds w1 p1 resp →
  http.StatusCode resp = 200%Z → http.Body resp = rows →
  Socket p2 ≠ "" → unix w2 (Socket p2) = Streams rows →
  FetchMetrics ParseFloat w1 p1 = parseStats ParseFloat rows
  ∧ FetchMetrics ParseFloat w2 p2 = parseStats ParseFloat rows.
Proof.
  intros Hsock1 (b & Hasked & Hdo) Hstatus Hbody Hsock2 Hunix. split.
  - rewrite (haproxy_tcp_asked _ _ _ _ Hsock1 Hasked), Hdo, bind_Ok, Hstatus, Hbody.
    reflexivity.
  - unfold FetchMetrics, fetchMetricsFromSocket.
    destruct (String.eqb_spec (Socket p2) ""); [done|]. by rewrite Hunix.
Qed.

Lemma haproxy_request_the_request p :
  request p {| http.Method := "GET"; http.URL := URI p +:+ ";csv;norefresh";
               http.UserAgent := None; http.BasicAuth := None |}
  = the_request p.
Proof.
  unfold request, the_request, http.SetBasicAuth.
  cbn [http.Method http.URL http.UserAgent http.BasicAuth].
  destruct (String.eqb_spec (Username p) "") as [Hu|Hu];
    cbn [negb]; case_decide as Hd; try done.
Qed.

(** X15: one request over HTTP, none with a socket. Without a socket,
    [FetchMetrics] asks the web endpoint once: a GET of [URI;csv;norefresh]
    with basic authentication exactly when the user name is set, and two
    worlds that treat this address and this request alike give the same
    result. With a socket, the result depends on what that socket does and
    on nothing else: neither the web endpoint nor the URI, user name or
    password of the plugin matter. *)
Theorem haproxy_asks_once (w w' : World) (p p' : HAProxyPlugin) :
  (Socket p = "" →
   http.url_Parse (web w) (URI p +:+ ";csv;norefresh")
     = http.url_Parse (web w') (URI p +:+ ";csv;norefresh") →
   http.remote (web w) client (the_request p)
     = http.remote (web w') client (the_request p) →
   FetchMetrics ParseFloat w p = FetchMetrics ParseFloat w' p)
  ∧ (Socket p ≠ "" → Socket p' = Socket p →
     unix w (Socket p) = unix w' (Socket p) →
     FetchMetrics ParseFloat w p = FetchMetrics ParseFloat w' p').
Proof.
  split.
  - intros Hsock Hurl Hremote.
    unfold FetchMetrics, fetchMetricsFromTCP, http.NewRequest.
    rewrite Hsock. cbn [String.eqb]. rewrite <- Hurl.
    destruct (http.url_Parse (web w) (URI p +:+ ";csv;norefresh")); [done|].
    by rewrite !bind_Ok, haproxy_request_the_request, Hremote.
  - intros Hsock Hsame Hunix. unfold FetchMetrics, fetchMetricsFromSocket.
    rewrite Hsame. destruct (String.eqb_spec (Socket p) ""); [done|].
    by rewrite Hunix.
Qed.

End parseStats_more.

(** ** PHP-FPM: what is reported *)

Section phpfpm_more.
Import PhpFpm NetSpec SchemaSpec.

Lemma uint64_field_bound (members : gmap string member) tag :
  (uint64_field members tag < 2 ^ 64)%N.
Proof.
  unfold uint64_field. destruct (members !! tag) as [[n| |]|]; try done.
  by destruct (N.ltb_spec n (2 ^ 64)).
Qed.

Lemma phpfpm_report_NoDup (st : PhpFpmStatus) :
  NoDup [
    ("total_processes", TotalProcesses st);
    ("active_processes", ActiveProcesses st);
    ("idle_processes", IdleProcesses st);
    ("max_active_processes", MaxActiveProcesses st);
    ("max_children_reached", MaxChildrenReached st);
    ("listen_queue", ListenQueue st);
    ("listen_queue_len", ListenQueueLen st);
    ("max_listen_queue", MaxListenQueue st);
    ("slow_requests", SlowRequests st)].*1.
Proof. cbn [fmap list_fmap fst]. apply (bool_decide_unpack _). by vm_compute. Qed.

(** X16: each metric of the PHP-FPM plugin is read from the member of the
    status object that bears its name with spaces, and nothing else is
    reported. For a body that is a JSON object, [FetchMetrics] returns the
    map whose value at a metric is the member's unsigned integer, or 0 when
    the member is absent or is not an unsigned integer below [2^64]; every
    value is below [2^64]; the members "pool", "process manager", "start
    time", "start since" and "accepted conn" are not reported. *)
Theorem phpfpm_metrics_from_members (w : http.World payload) (p : PhpFpmPlugin)
    (res : http.Response payload) (members : gmap string member) :
  phpfpm_responds w p res → http.Body res = JSONObject members →
  ∃ stat,
    FetchMetrics w p = Ok stat
    ∧ (∀ k tag, (k, tag) ∈ phpfpm_tags →
         stat !! k = Some (uint64_field members tag))
    ∧ (∀ k v, stat !! k = Some v → (v < 2 ^ 64)%N ∧ k ∈ phpfpm_tags.*1).
Proof.
  intros Hresp Hbody. eexists. split.
  { eapply phpfpm_FetchMetrics_decoded; [exact Hresp|]. rewrite Hbody. reflexivity. }
  cbn [TotalProcesses ActiveProcesses IdleProcesses MaxActiveProcesses
       MaxChildrenReached ListenQueue ListenQueueLen MaxListenQueue SlowRequests].
  split.
  - intros k tag Htag. apply elem_of_list_to_map.
    { apply (bool_decide_unpack _). by vm_compute. }
    unfold phpfpm_tags in Htag. rewrite !elem_of_cons, elem_of_nil in Htag.
    rewrite !elem_of_cons.
    destruct Htag as [[= -> ->]|[[= -> ->]|[[= -> ->]|[[= -> ->]|[[= -> ->]|
                     [[= -> ->]|[[= -> ->]|[[= -> ->]|[[= -> ->]|[]]]]]]]]]];
      tauto.
  - intros k v Hv. apply elem_of_list_to_map in Hv.
    2:{ apply (bool_decide_unpack _). by vm_compute. }
    rewrite !elem_of_cons, elem_of_nil in Hv.
    destruct Hv as [[= -> ->]|[[= -> ->]|[[= -> ->]|[[= -> ->]|[[= -> ->]|
                   [[= -> ->]|[[= -> ->]|[[= -> ->]|[[= -> ->]|[]]]]]]]]]];
      (split; [apply uint64_field_bound|]);
      unfold phpfpm_tags; cbn [fmap list_fmap fst]; rewrite !elem_of_cons; tauto.
Qed.

(** X17: valid JSON that is not an object. For the body [null] the status
    pointer stays nil and [FetchMetrics] panics; for any other JSON value
    that is not an object (a number, a string, an array) [FetchMetrics]
    returns all nine metrics with the value 0 and no error. *)
Theorem phpfpm_json_without_object (w : http.World payload) (p : PhpFpmPlugin)
    (res : http.Response payload) :
  phpfpm_responds w p res →
  (http.Body res = JSONNull →
   FetchMetrics w p =
     Panic "runtime error: invalid memory address or nil pointer dereference")
  ∧ (http.Body res = JSONOther →
     ∃ stat, FetchMetrics w p = Ok stat
             ∧ ∀ k, k ∈ phpfpm_tags.*1 → stat !! k = Some 0%N).
Proof.
  intros Hresp. split.
  - intros Hbody. unfold FetchMetrics.
    by rewrite (phpfpm_getStatus_responds _ _ _ Hresp), Hbody.
  - intros Hbody. eexists. split.
    { apply (phpfpm_FetchMetrics_decoded _ _ _ zero_status Hresp). by rewrite Hbody. }
    cbn [zero_status TotalProcesses ActiveProcesses IdleProcesses MaxActiveProcesses
         MaxChildrenReached ListenQueue ListenQueueLen MaxListenQueue SlowRequests].
    intros k Hk. apply elem_of_list_to_map.
    { apply (bool_decide_unpack _). by vm_compute. }
    unfold phpfpm_tags in Hk. cbn [fmap list_fmap fst] in Hk.
    rewrite !elem_of_cons, elem_of_nil in Hk. rewrite !elem_of_cons.
    destruct Hk as [->|[->|[->|[->|[->|[->|[->|[->|[->|[]]]]]]]]]]; tauto.
Qed.

(** X18: the errors of the PHP-FPM fetch. [FetchMetrics] returns an error
    exactly when [http.NewRequest], [client.Do] or [ioutil.ReadAll] does,
    and the error is that one after the words
    [Failed to fetch PHP-FPM metrics: ]. What a body that has been read
    contains never makes it return an error: the error of [json.Unmarshal]
    is dropped. *)
Theorem phpfpm_errors (w : http.World payload) (p : PhpFpmPlugin) (e : string) :
  FetchMetrics w p = Err e ↔
  ∃ e', e = "Failed to fetch PHP-FPM metrics: " +:+ e'
        ∧ (http.NewRequest w "GET" (URL p) = Err e'
           ∨ ∃ req, http.NewRequest w "GET" (URL p) = Ok req
                ∧ (http.Do (client p) (http.remote w (client p) (request req)) = Err e'
                   ∨ ∃ res,
                       http.Do (client p) (http.remote w (client p) (request req)) = Ok res
                       ∧ ReadAll (http.Body res) = Err e')).
Proof.
  unfold FetchMetrics, getStatus.
  destruct (http.NewRequest w "GET" (URL p)) as [req|e0| |] eqn:Hreq.
  - rewrite bind_Ok.
    destruct (http.Do (client p) _) as [res|e1| |] eqn:Hdo.
    + rewrite bind_Ok.
      destruct (ReadAll (http.Body res)) as [body|e2| |] eqn:Hread.
      * rewrite !bind_Ok. split.
        { destruct (Unmarshal body); done. }
        intros (e' & _ & [[=]|(req' & [= <-] & [Hdo'|(res' & Hdo' & Hread')])]).
        { by rewrite Hdo in Hdo'. }
        rewrite Hdo in Hdo'. injection Hdo' as <-. by rewrite Hread in Hread'.
      * split.
        { intros [= <-]. exists e2. split; [done|]. right. exists req.
          split; [done|]. right. by exists res. }
        intros (e' & -> & [[=]|(req' & [= <-] & [Hdo'|(res' & Hdo' & Hread')])]).
        { by rewrite Hdo in Hdo'. }
        rewrite Hdo in Hdo'. injection Hdo' as <-. rewrite Hread in Hread'.
        by injection Hread' as ->.
      * by destruct (http.Body res).
      * by destruct (http.Body res).
    + split.
      * intros [= <-]. exists e1. split; [done|]. right. exists req.
        split; [done|by left].
      * intros (e' & -> & [[=]|(req' & [= <-] & [Hdo'|(res' & Hdo' & _)])]).
        { rewrite Hdo in Hdo'. by injection Hdo' as ->. }
        by rewrite Hdo in Hdo'.
    + split; [done|].
      intros (e' & _ & [[=]|(req' & [= <-] & [Hdo'|(res' & Hdo' & _)])]);
        by rewrite Hdo in Hdo'.
    + split; [done|].
      intros (e' & _ & [[=]|(req' & [= <-] & [Hdo'|(res' & Hdo' & _)])]);
        by rewrite Hdo in Hdo'.
  - split.
    + intros [= <-]. exists e0. split; [done|by left].
    + intros (e' & -> & [[= ->]|(req' & [=] & _)]). done.
  - unfold http.NewRequest in Hreq. by destruct (http.url_Parse w (URL p)).
  - unfold http.NewRequest in Hreq. by destruct (http.url_Parse w (URL p)).
Qed.

Lemma wrap_int64_high z :
  (2 ^ 63 ≤ z < 2 ^ 64)%Z → wrap_int64 z = (z - 2 ^ 64)%Z.
Proof.
  intros Hz. unfold wrap_int64.
  change (2 ^ 63)%Z with 9223372036854775808%Z in *.
  change (2 ^ 64)%Z with 18446744073709551616%Z in *.
  replace (z + 9223372036854775808)%Z
    with ((z - 9223372036854775808) + 1 * 18446744073709551616)%Z by lia.
  rewrite Z_mod_plus_full, Z.mod_small; lia.
Qed.

Lemma phpfpm_timeout_disabled p :
  (Timeout p = 0 ∨ 9223372037 ≤ Timeout p ≤ 18446744073)%N →
  (timeout p ≤ 0)%Z.
Proof.
  intros [H0|[Hlo Hhi]]; unfold timeout, http.second.
  - rewrite H0. by vm_compute.
  - rewrite (wrap_int64_small (Z.of_N _)).
    + rewrite wrap_int64_high.
      * change (2 ^ 64)%Z with 18446744073709551616%Z. lia.
      * change (2 ^ 63)%Z with 9223372036854775808%Z.
        change (2 ^ 64)%Z with 18446744073709551616%Z. lia.
    + change (2 ^ 63)%Z with 9223372036854775808%Z. lia.
Qed.

(** X19: timeouts that switch the timeout off. With [-timeout 0], and with a
    number of seconds from 9223372037 to 18446744073, whose product with
    [time.Second] wraps around to a negative [time.Duration] (on a 64-bit
    platform), the HTTP client of the PHP-FPM plugin has no deadline:
    against a target that never answers, [FetchMetrics] does not return. *)
Theorem phpfpm_timeout_switched_off (w : http.World payload) (p : PhpFpmPlugin) :
  FastCGI p = false →
  (Timeout p = 0 ∨ 9223372037 ≤ Timeout p ≤ 18446744073)%N →
  phpfpm_asked w p http.Silent →
  (http.Timeout (client p) ≤ 0)%Z ∧ FetchMetrics w p = Blocked.
Proof.
  intros Hfcgi Hrange Hasked.
  pose proof (phpfpm_timeout_disabled p Hrange) as Hle.
  split; [done|]. unfold FetchMetrics.
  rewrite (phpfpm_getStatus_asked _ _ _ Hasked). unfold http.Do.
  cbn [http.Timeout client]. by destruct (Z.ltb_spec 0 (timeout p)); [lia|].
Qed.

End phpfpm_more.

(** ** The scratch file and the schema of the Elasticsearch plugin *)

Section es_config.
Import Elasticsearch Flags Descent.

Lemma dashless_app_dash (h p : string) : ¬ dashless (h +:+ String.String "-" p).
Proof.
  induction h as [|c h IH]; cbn [String.append dashless].
  - by intros [? _].
  - by intros [_ ?%IH].
Qed.

Lemma dash_split (h1 h2 p1 p2 : string) :
  dashless p1 → dashless p2 →
  h1 +:+ String.String "-" p1 = h2 +:+ String.String "-" p2 →
  h1 = h2 ∧ p1 = p2.
Proof.
  intros Hp1 Hp2. revert h2. induction h1 as [|c h1 IH]; intros [|c2 h2];
    cbn [String.append].
  - by intros [= ->].
  - intros [= <- ->]. by destruct (dashless_app_dash h2 p2).
  - intros [= -> <-]. by destruct (dashless_app_dash h1 p1).
  - intros [= -> H]. by destruct (IH _ H) as [-> ->].
Qed.

(** X20: the scratch file tells the targets apart. Without the flag
    [-tempfile], two runs of the Elasticsearch plugin whose ports contain no
    [-] are given the same base name for the record of the previous
    observation only when they have the same host and the same port. *)
Theorem elasticsearch_tempfile_per_target (f f' : Flags.elasticsearch) :
  es_tempfile f = "" → es_tempfile f' = "" →
  dashless (es_port f) → dashless (es_port f') →
  elasticsearch_tempfile f = elasticsearch_tempfile f' →
  es_host f = es_host f' ∧ es_port f = es_port f'.
Proof.
  intros Ht Ht' Hp Hp'. unfold elasticsearch_tempfile. rewrite Ht, Ht'.
  cbn [String.eqb negb]. intros [= H]. cbn [String.append] in H.
  by apply dash_split.
Qed.

Lemma elasticsearch_tempfile_per_target_witness :
  es_scheme elasticsearch_defaults ≠ es_scheme MoreSamples.es_tls_flags
  ∧ elasticsearch_tempfile elasticsearch_defaults
    = elasticsearch_tempfile MoreSamples.es_tls_flags
  ∧ es_host elasticsearch_defaults = es_host MoreSamples.es_tls_flags
  ∧ es_port elasticsearch_defaults = es_port MoreSamples.es_tls_flags.
Proof.
  split; [discriminate|]. split; [reflexivity|].
  apply (elasticsearch_tempfile_per_target elasticsearch_defaults MoreSamples.es_tls_flags).
  - reflexivity.
  - reflexivity.
  - cbn. repeat split; discriminate.
  - cbn. repeat split; discriminate.
  - reflexivity.
Defined.

Lemma es_declared_names p :
  mp.Name <$> mp.metrics_of (graphdef_table p) = metricPlace_table.*1.
Proof. reflexivity. Qed.

(** X21: the schema of the Elasticsearch plugin and [metricPlace] name the
    same metrics. For every key prefix the graph definition has ten graphs,
    each under a key that starts with the prefix; no metric is declared
    twice; and the declared metrics are exactly the keys of
    [metricPlace]. *)
Theorem elasticsearch_schema_covers_places (p : ElasticsearchPlugin) :
  size (GraphDefinition p) = 10%nat
  ∧ (∀ key, is_Some (GraphDefinition p !! key) →
            ∃ suffix, key = Prefix p +:+ suffix)
  ∧ NoDup (mp.Name <$> mp.metrics_of (map_to_list (GraphDefinition p)))
  ∧ mp.declared (GraphDefinition p) = dom metricPlace.
Proof.
  pose proof (es_graph_keys_NoDup p) as Hkeys.
  split; [|split; [|split]].
  - unfold GraphDefinition. by rewrite map_size_list_to_map.
  - intros key [g Hg]. unfold GraphDefinition in Hg.
    apply elem_of_list_to_map in Hg; [|done].
    unfold graphdef_table in Hg. rewrite !elem_of_cons, elem_of_nil in Hg.
    destruct Hg as [[= -> _]|[[= -> _]|[[= -> _]|[[= -> _]|[[= -> _]|
                   [[= -> _]|[[= -> _]|[[= -> _]|[[= -> _]|[[= -> _]|[]]]]]]]]]]];
      by eexists.
  - unfold GraphDefinition, mp.metrics_of.
    rewrite (map_to_list_to_map (graphdef_table p) Hkeys).
    fold (mp.metrics_of (graphdef_table p)). rewrite es_declared_names.
    apply metricPlace_table_NoDup.
  - apply es_declared.
Qed.

End es_config.

(** ** How the fetches can end *)

Section endings.
Import NetSpec.

Lemma parseStats_total ParseFloat rows :
  is_ok (HAProxy.parseStats ParseFloat rows) = true
  ∨ is_err (HAProxy.parseStats ParseFloat rows) = true.
Proof. apply parseStats_loop_total. Qed.

Lemma haproxy_Do_returns (b : http.behaviour (list (list string))) :
  is_ok (http.Do HAProxy.client b) = true ∨ is_err (http.Do HAProxy.client b) = true.
Proof.
  destruct b as [err|d r|]; cbn [http.Do HAProxy.client http.Timeout].
  - by right.
  - destruct ((0 <? 5 * http.second)%Z && (5 * http.second <? d)%Z); auto.
  - by right.
Qed.

(** X22: how the fetch of the HAProxy plugin can end. [FetchMetrics] never
    panics. Over HTTP it always returns, with a map or an error; it can
    wait for ever only when it reads from a socket whose peer never
    answers. *)
Theorem haproxy_fetch_endings ParseFloat (w : HAProxy.World) (p : HAProxy.HAProxyPlugin) :
  is_panic (HAProxy.FetchMetrics ParseFloat w p) = false
  ∧ (HAProxy.FetchMetrics ParseFloat w p = Blocked ↔
     HAProxy.Socket p ≠ "" ∧ HAProxy.unix w (HAProxy.Socket p) = HAProxy.Stalls).
Proof.
  unfold HAProxy.FetchMetrics.
  destruct (String.eqb_spec (HAProxy.Socket p) "") as [Hsock|Hsock].
  - assert (Hret : is_ok (HAProxy.fetchMetricsFromTCP ParseFloat w p) = true
                   ∨ is_err (HAProxy.fetchMetricsFromTCP ParseFloat w p) = true).
    { unfold HAProxy.fetchMetricsFromTCP.
      destruct (http.NewRequest _ _ _) as [req| | |] eqn:Hreq;
        [|by right|unfold http.NewRequest in Hreq;
                    by destruct (http.url_Parse _ _)..].
      rewrite bind_Ok.
      destruct (haproxy_Do_returns
                  (http.remote (HAProxy.web w) HAProxy.client (HAProxy.request p req)))
        as [H|H];
        destruct (http.Do _ _) as [resp| | |]; try done; [|by right].
      rewrite bind_Ok. destruct (negb _); [by right|apply parseStats_total]. }
    destruct (HAProxy.fetchMetricsFromTCP ParseFloat w p);
      destruct Hret as [?|?]; try done; (split; [done|]); split; try done;
      by intros [? _].
  - unfold HAProxy.fetchMetricsFromSocket.
    destruct (HAProxy.unix w (HAProxy.Socket p)) as [err|rows|] eqn:Hunix.
    + split; [done|]. split; [done|by intros [_ ?]].
    + destruct (parseStats_total ParseFloat rows) as [H|H];
        destruct (HAProxy.parseStats ParseFloat rows); try done;
        (split; [done|]); split; try done; by intros [_ ?].
    + split; [done|]. by split.
Qed.

(** X23: when the fetch of the PHP-FPM plugin panics. Once the target has
    answered and the body has been read, [FetchMetrics] panics exactly when
    the body is not valid JSON or is the JSON value [null]; for every other
    body it returns a map. *)
Theorem phpfpm_panics_iff (w : http.World PhpFpm.payload) (p : PhpFpm.PhpFpmPlugin)
    (res : http.Response PhpFpm.payload) :
  phpfpm_responds w p res →
  (is_panic (PhpFpm.FetchMetrics w p) = true ↔
   (∃ e, http.Body res = PhpFpm.NotJSON e) ∨ http.Body res = PhpFpm.JSONNull)
  ∧ (is_panic (PhpFpm.FetchMetrics w p) = false →
     is_ok (PhpFpm.FetchMetrics w p) = true).
Proof.
  intros Hres. unfold PhpFpm.FetchMetrics.
  rewrite (phpfpm_getStatus_responds _ _ _ Hres).
  destruct Hres as (_ & _ & _ & Hread).
  destruct (http.Body res) as [e| |members| |err];
    cbn [PhpFpm.Unmarshal PhpFpm.deref]; [| | | |done].
  - split; [|done]. split; [intros _; left; by exists e|done].
  - split; [|done]. split; [intros _; by right|done].
  - rewrite bind_Ok. split; [|done]. split; [done|]. by intros [[e [=]]|[=]].
  - rewrite bind_Ok. split; [|done]. split; [done|]. by intros [[e [=]]|[=]].
Qed.

End endings.

(** ** Runs for the properties above *)

Section more_runs.
Import Samples HaSamples NetSamples MoreSamples.

Lemma range_reversed_fair : fair range_reversed.
Proof. intros V m. unfold range_reversed. apply reverse_Permutation. Qed.

Lemma es_answer_responds body :
  EsSpec.responds (answering 200 "200 OK" body) es_plugin (ok_response body).
Proof. eexists. split; reflexivity. Qed.

Lemma FetchMetrics_multiple_nodes_witness :
  Elasticsearch.FetchMetrics range_sorted
    (answering 200 "200 OK" (Elasticsearch.JSON (Elasticsearch.Object es_two_nodes)))
    es_plugin
  = Err "Multiple node found".
Proof.
  apply (FetchMetrics_multiple_nodes range_sorted _ es_plugin
           (ok_response (Elasticsearch.JSON (Elasticsearch.Object es_two_nodes)))
           es_two_nodes
           {[ "n1" := Elasticsearch.Null; "n2" := Elasticsearch.Null ]}).
  - intros V m. reflexivity.
  - apply es_answer_responds.
  - reflexivity.
  - vm_compute. reflexivity.
  - apply (bool_decide_unpack _). vm_compute. exact I.
  - vm_compute. reflexivity.
Defined.

Lemma FetchMetrics_no_node_panics_witness :
  Elasticsearch.FetchMetrics range_sorted
    (answering 200 "200 OK" (Elasticsearch.JSON (Elasticsearch.Object es_no_node)))
    es_plugin
  = Panic "interface conversion: interface {} is nil, not map[string]interface {}".
Proof.
  apply (FetchMetrics_no_node_panics range_sorted _ es_plugin
           (ok_response (Elasticsearch.JSON (Elasticsearch.Object es_no_node)))
           es_no_node).
  - intros V m. reflexivity.
  - apply es_answer_responds.
  - reflexivity.
  - vm_compute. reflexivity.
Defined.

Lemma FetchMetrics_order_independent_witness :
  ∃ stat log1 log2,
    Elasticsearch.FetchMetrics range_sorted (answering 200 "200 OK" es_body) es_plugin
      = Ok (stat, log1)
    ∧ Elasticsearch.FetchMetrics range_reversed (answering 200 "200 OK" es_body) es_plugin
      = Ok (stat, log2)
    ∧ log1 ≡ₚ log2.
Proof.
  apply (FetchMetrics_order_independent range_sorted range_reversed _ es_plugin
           (ok_response es_body) es_stats "n1" es_node).
  - intros V m. reflexivity.
  - apply range_reversed_fair.
  - apply es_answer_responds.
  - reflexivity.
  - vm_compute. reflexivity.
Defined.

Lemma every_place_reported_or_logged_witness :
  ∃ stat log,
    Elasticsearch.FetchMetrics range_sorted (answering 200 "200 OK" es_body) es_plugin
      = Ok (stat, log)
    ∧ (size stat + length log = 49)%nat.
Proof.
  apply (every_place_reported_or_logged range_sorted _ es_plugin
           (ok_response es_body) es_stats "n1" es_node).
  - intros V m. reflexivity.
  - reflexivity.
  - apply es_answer_responds.
  - reflexivity.
  - vm_compute. reflexivity.
Defined.

Lemma FetchMetrics_one_request_witness :
  http.url_Parse (answering 200 "200 OK" es_body) "http://localhost:9200/"
    ≠ http.url_Parse es_one_route "http://localhost:9200/"
  ∧ Elasticsearch.FetchMetrics range_sorted (answering 200 "200 OK" es_body) es_plugin
    = Elasticsearch.FetchMetrics range_sorted es_one_route es_plugin.
Proof.
  split; [discriminate|].
  apply (FetchMetrics_one_request range_sorted
           (answering 200 "200 OK" es_body) es_one_route es_plugin);
    reflexivity.
Defined.

Lemma ha_rows_wide : Forall (λ columns, (60 ≤ length columns)%nat) ha_rows.
Proof. unfold ha_rows. repeat apply Forall_cons_2; try apply ha_row_length. apply Forall_nil_2. Qed.

Lemma parseStats_backend_only_witness :
  HAProxy.parseStats parse_decimal ha_rows
  = HAProxy.parseStats parse_decimal (List.filter HaSpec.backend ha_rows).
Proof. apply (parseStats_backend_only parse_decimal ha_rows). apply ha_rows_wide. Defined.

Lemma bad_number_aborts_witness :
  HAProxy.parseStats parse_decimal (ha_frontend_only ++ ha_bad_row :: ha_rows)
  = Err "cannot get values".
Proof.
  apply (bad_number_aborts parse_decimal ha_frontend_only ha_bad_row ha_rows ∅).
  - vm_compute. reflexivity.
  - apply ha_row_length.
  - reflexivity.
  - exists 7%nat, "n/a". split; [by left|]. split; reflexivity.
Defined.

Lemma transports_agree_witness :
  HAProxy.FetchMetrics parse_decimal (ha_world (answering 200 "200 OK" ha_rows)) ha_plugin
    = HAProxy.parseStats parse_decimal ha_rows
  ∧ HAProxy.FetchMetrics parse_decimal ha_socket_world ha_socket_plugin
    = HAProxy.parseStats parse_decimal ha_rows.
Proof.
  apply (transports_agree parse_decimal
           (ha_world (answering 200 "200 OK" ha_rows)) ha_socket_world
           ha_plugin ha_socket_plugin
           (ok_response ha_rows) ha_rows).
  - reflexivity.
  - eexists. split; [eexists; split; reflexivity|reflexivity].
  - reflexivity.
  - reflexivity.
  - discriminate.
  - reflexivity.
Defined.

Lemma php_answer_responds body :
  PhpFpm.ReadAll body = Ok body →
  NetSpec.phpfpm_responds (answering 200 "200 OK" body) php_plugin (ok_response body).
Proof.
  intros Hread. eexists. split; [eexists; split; reflexivity|]. split; [reflexivity|done].
Qed.

Lemma phpfpm_metrics_from_members_witness :
  ∃ stat,
    PhpFpm.FetchMetrics (answering 200 "200 OK" (PhpFpm.JSONObject php_members)) php_plugin
      = Ok stat
    ∧ (∀ k tag, (k, tag) ∈ SchemaSpec.phpfpm_tags →
         stat !! k = Some (PhpFpm.uint64_field php_members tag))
    ∧ (∀ k v, stat !! k = Some v →
              (v < 2 ^ 64)%N ∧ k ∈ SchemaSpec.phpfpm_tags.*1).
Proof.
  apply (phpfpm_metrics_from_members _ php_plugin
           (ok_response (PhpFpm.JSONObject php_members)) php_members).
  - by apply php_answer_responds.
  - reflexivity.
Defined.

Lemma phpfpm_json_without_object_witness :
  PhpFpm.FetchMetrics (answering 200 "200 OK" PhpFpm.JSONNull) php_plugin
  = Panic "runtime error: invalid memory address or nil pointer dereference".
Proof.
  destruct (phpfpm_json_without_object (answering 200 "200 OK" PhpFpm.JSONNull) php_plugin
              (ok_response PhpFpm.JSONNull)) as [Hnull _].
  - by apply php_answer_responds.
  - apply Hnull. reflexivity.
Defined.

Lemma phpfpm_timeout_switched_off_witness :
  (http.Timeout (PhpFpm.client php_plugin_no_timeout) ≤ 0)%Z
  ∧ PhpFpm.FetchMetrics silent php_plugin_no_timeout = Blocked.
Proof.
  apply (phpfpm_timeout_switched_off silent php_plugin_no_timeout).
  - reflexivity.
  - left. reflexivity.
  - eexists. split; reflexivity.
Defined.

Lemma phpfpm_panics_iff_witness :
  (is_panic (PhpFpm.FetchMetrics (answering 200 "200 OK" PhpFpm.JSONOther) php_plugin) = true
   ↔ (∃ e, http.Body (ok_response PhpFpm.JSONOther) = PhpFpm.NotJSON e)
     ∨ http.Body (ok_response PhpFpm.JSONOther) = PhpFpm.JSONNull)
  ∧ (is_panic (PhpFpm.FetchMetrics (answering 200 "200 OK" PhpFpm.JSONOther) php_plugin) = false →
     is_ok (PhpFpm.FetchMetrics (answering 200 "200 OK" PhpFpm.JSONOther) php_plugin) = true).
Proof.
  apply (phpfpm_panics_iff (answering 200 "200 OK" PhpFpm.JSONOther) php_plugin
           (ok_response PhpFpm.JSONOther)).
  by apply php_answer_responds.
Defined.

End more_runs.
